(** * IC++ pricing breakdown calculator: a shallow embedding of
      [icpp_calculator.py] and the properties of its core.

    The Python program reads a worksheet, joins every transaction with a fee
    record, computes the fee waterfall and accumulates per-bucket statistics.
    Python values are embedded as follows:
    - [str] is [string], a character being a code point below 256; the case
      conversions and the number parsers are those of Python on ASCII text
      (every code point below 128, [Py.is_ascii]), and a statement that needs
      the text to be ASCII says so; [int] is [Z], [float] is the primitive
      binary64 [float] with its IEEE-754 operations;
    - a [dict] with string keys is a [gmap string _]; the fee record, the
      breakdown and the aggregation bucket, whose keys are fixed by the code
      that builds them, are records;
    - [None] is [None]: a value that can be [None] or a [str] is an
      [option string];
    - a raised exception is the right injection of a [result]. *)

From Stdlib Require Import ZArith String Ascii List Lia Bool.
From Stdlib Require Import Floats.PrimFloat Floats.FloatOps Floats.SpecFloat.
From stdpp Require Import base option list gmap strings.

Set Warnings "-inexact-float".
Local Open Scope string_scope.
Local Open Scope Z_scope.

(* ====================================================================== *)
(** ** Python strings *)
(* ====================================================================== *)

Module Py.

(** [ord(c)] *)
Definition ord (c : ascii) : Z := Z.of_N (N_of_ascii c).

Definition is_lower (c : ascii) : bool := (97 <=? ord c) && (ord c <=? 122).
Definition is_upper (c : ascii) : bool := (65 <=? ord c) && (ord c <=? 90).

(** [c.isalpha()]: the ASCII letters and the letters of Latin-1, which are
    the code points 170, 181, 186 and 192 to 255 without the two signs 215
    and 247. *)
Definition isalpha (c : ascii) : bool :=
  is_lower c || is_upper c
  || (ord c =? 170) || (ord c =? 181) || (ord c =? 186)
  || ((192 <=? ord c) && (ord c <=? 214))
  || ((216 <=? ord c) && (ord c <=? 246))
  || ((248 <=? ord c) && (ord c <=? 255)).

(** ASCII text: every code point is below 128. *)
Definition is_ascii_char (c : ascii) : bool := ord c <? 128.

Fixpoint is_ascii (s : string) : bool :=
  match s with
  | EmptyString => true
  | String c r => is_ascii_char c && is_ascii r
  end.

(** [c.upper()] and [c.lower()] on an ASCII character *)
Definition upper_char (c : ascii) : ascii :=
  if is_lower c then ascii_of_N (N_of_ascii c - 32) else c.
Definition lower_char (c : ascii) : ascii :=
  if is_upper c then ascii_of_N (N_of_ascii c + 32) else c.

Fixpoint map_str (f : ascii -> ascii) (s : string) : string :=
  match s with
  | EmptyString => EmptyString
  | String c r => String (f c) (map_str f r)
  end.

(** [s.upper()], [s.lower()] *)
Definition upper : string -> string := map_str upper_char.
Definition lower : string -> string := map_str lower_char.

(** [''.join(filter(p, s))] *)
Fixpoint filter_str (p : ascii -> bool) (s : string) : string :=
  match s with
  | EmptyString => EmptyString
  | String c r => if p c then String c (filter_str p r) else filter_str p r
  end.

(** [needle in hay] *)
Fixpoint contains (needle hay : string) : bool :=
  String.prefix needle hay
  || match hay with
     | EmptyString => false
     | String _ r => contains needle r
     end.

(** Truth value of a [str]: the empty string is falsy. *)
Definition truthy_str (s : string) : bool :=
  match s with EmptyString => false | _ => true end.

(** Truth value of a value that is [None] or a [str]. *)
Definition truthy (v : option string) : bool :=
  match v with Some s => truthy_str s | None => false end.

(** [a or b] *)
Definition or_ (a b : option string) : option string :=
  if truthy a then a else b.

(** [s in [x1, ..., xn]] *)
Definition in_list (s : string) (l : list string) : bool :=
  existsb (String.eqb s) l.

(** *** [int(s)] and [float(s)] on ASCII text

    Both accept an underscore between two digits, strip the surrounding
    white space (the space and the characters 9 to 13) and accept a sign.
    [int] then wants decimal digits only, at most 4300 of them; [float] wants
    [inf], [infinity], [nan] (any case) or a decimal literal with an optional
    fraction and exponent, and rounds it to the nearest binary64 value.
    [None] stands for [ValueError]. *)

Definition is_digit (c : ascii) : bool := (48 <=? ord c) && (ord c <=? 57).

Definition is_space (c : ascii) : bool :=
  (ord c =? 32) || ((9 <=? ord c) && (ord c <=? 13)).

(** Digit separators: an underscore is accepted, and dropped, only between
    two digits; [prev] is the character before [s]. [None] when an underscore
    stands anywhere else. *)
Fixpoint drop_separators (prev : ascii) (s : string) : option string :=
  match s with
  | EmptyString => if Ascii.eqb prev "_" then None else Some EmptyString
  | String c r =>
      if Ascii.eqb c "_" then
        if is_digit prev then drop_separators c r else None
      else if Ascii.eqb prev "_" && negb (is_digit c) then None
      else option_map (String c) (drop_separators c r)
  end.

(** The limit on the number of digits of [int(s)]. *)
Definition max_str_digits : Z := 4300.

Fixpoint lstrip (s : string) : string :=
  match s with
  | String c r => if is_space c then lstrip r else s
  | EmptyString => EmptyString
  end.

Definition rev_str (s : string) : string :=
  string_of_list_ascii (List.rev (list_ascii_of_string s)).

Definition strip (s : string) : string := rev_str (lstrip (rev_str (lstrip s))).

(** Reads the longest prefix of digits: its value on top of [acc], the
    number of digits read on top of [n], and what follows. *)
Fixpoint read_digits (s : string) (acc n : Z) : Z * Z * string :=
  match s with
  | String c r =>
      if is_digit c then read_digits r (acc * 10 + (ord c - 48)) (n + 1)
      else (acc, n, s)
  | EmptyString => (acc, n, s)
  end.

Definition read_sign (s : string) : bool * string :=
  match s with
  | String c r =>
      if Ascii.eqb c "-" then (true, r)
      else if Ascii.eqb c "+" then (false, r)
      else (false, s)
  | EmptyString => (false, s)
  end.

Definition int_of_str (s : string) : option Z :=
  match drop_separators Ascii.zero s with
  | None => None
  | Some s0 =>
      let '(neg, s1) := read_sign (strip s0) in
      let '(v, n, rest) := read_digits s1 0 0 in
      if (0 <? n) && (n <=? max_str_digits) && negb (truthy_str rest)
      then Some (if neg then - v else v)
      else None
  end.

(** The binary64 value nearest to [(-1)^neg * m * 10^x], ties to even. *)
Definition float_of_decimal (neg : bool) (m x : Z) : float :=
  if m =? 0 then SF2Prim (S754_zero neg)
  else if 0 <=? x
  then SF2Prim (binary_normalize prec emax ((if neg then - m else m) * 10 ^ x) 0 false)
  else SF2Prim (SFdiv prec emax (S754_finite neg (Z.to_pos m) 0)
                                (S754_finite false (Z.to_pos (10 ^ (- x))) 0)).

(** Optional exponent part: [e], a sign and at least one digit. *)
Definition read_exponent (s : string) : option (Z * string) :=
  match s with
  | String c r =>
      if Ascii.eqb (upper_char c) "E" then
        let '(eneg, r1) := read_sign r in
        let '(e, n, rest) := read_digits r1 0 0 in
        if 0 <? n then Some (if eneg then - e else e, rest) else None
      else Some (0, s)
  | EmptyString => Some (0, s)
  end.

Definition float_of_str (s : string) : option float :=
  match drop_separators Ascii.zero s with
  | None => None
  | Some s0 =>
      let '(neg, s1) := read_sign (strip s0) in
      let word := lower s1 in
      if String.eqb word "inf" || String.eqb word "infinity"
      then Some (if neg then neg_infinity else infinity)
      else if String.eqb word "nan" then Some nan
      else
        let '(ip, ni, s2) := read_digits s1 0 0 in
        let '(m, nf, s3) :=
          match s2 with
          | String "." r => read_digits r ip 0
          | _ => (ip, 0, s2)
          end in
        if 0 <? ni + nf then
          match read_exponent s3 with
          | Some (e, EmptyString) => Some (float_of_decimal neg m (e - nf))
          | _ => None
          end
        else None
  end.

(** [float(n)] on an [int] *)
Definition float_of_int (n : Z) : float :=
  SF2Prim (binary_normalize prec emax n 0 false).

(** Comparisons of floats as Python writes them. *)
Definition feq (x y : float) : bool := PrimFloat.eqb x y.
Definition fgt (x y : float) : bool := PrimFloat.ltb y x.

End Py.

(* ====================================================================== *)
(** ** ExcelReader._col_letter_to_num *)
(* ====================================================================== *)

Module ColumnCodec.
Import Py.

(** The body of the loop of [_col_letter_to_num]. *)
Definition step (num : Z) (char : ascii) : Z :=
  num * 26 + (ord (upper_char char) - ord "A" + 1).

(** [_col_letter_to_num]: the loop over the characters and the final
    [num - 1]. Python integers do not overflow. *)
Definition _col_letter_to_num (col_letter : string) : Z :=
  fold_left step (list_ascii_of_string col_letter) 0 - 1.

(** The reading the specification gives: the letters of the alphabet are the
    digits 1..26, whatever their case. *)
Definition alphabet : list ascii := list_ascii_of_string "ABCDEFGHIJKLMNOPQRSTUVWXYZ".

Fixpoint position (c : ascii) (l : list ascii) (i : Z) : option Z :=
  match l with
  | [] => None
  | x :: r => if Ascii.eqb c x then Some i else position c r (i + 1)
  end.

Definition letter_value (c : ascii) : option Z :=
  match position c alphabet 1 with
  | Some d => Some d
  | None => position c (List.map lower_char alphabet) 1
  end.

Fixpoint letter_values (s : string) : option (list Z) :=
  match s with
  | EmptyString => Some []
  | String c r =>
      match letter_value c, letter_values r with
      | Some d, Some ds => Some (d :: ds)
      | _, _ => None
      end
  end.

(** Value of a numeral in base 26, most significant digit first. *)
Fixpoint numeral26 (ds : list Z) : Z :=
  match ds with
  | [] => 0
  | d :: r => d * 26 ^ Z.of_nat (length r) + numeral26 r
  end.

End ColumnCodec.

(* ====================================================================== *)
(** ** Exceptions *)
(* ====================================================================== *)

Inductive exn : Type := TypeError | ValueError | KeyError | IndexError.

Inductive result (A : Type) : Type :=
| Ok (a : A)
| Raise (e : exn).
Arguments Ok {A} a.
Arguments Raise {A} e.

#[global] Instance result_ret : MRet result := fun _ a => Ok a.
#[global] Instance result_bind : MBind result := fun _ _ f m =>
  match m with
  | Ok a => f a
  | Raise e => Raise e
  end.

(** A [for] loop whose body can raise: the first exception ends it. *)
Fixpoint for_each {A S : Type} (body : S -> A -> result S) (l : list A) (s : S)
  : result S :=
  match l with
  | [] => Ok s
  | a :: r =>
      match body s a with
      | Ok s' => for_each body r s'
      | Raise e => Raise e
      end
  end.

Definition of_option {A : Type} (e : exn) (o : option A) : result A :=
  match o with Some a => Ok a | None => Raise e end.

(* ====================================================================== *)
(** ** ExcelReader *)
(* ====================================================================== *)

(** One parsed spreadsheet row: header name to cell text. *)
Abbreviation Transaction := (gmap string string).

Module ExcelReader.
Import Py ColumnCodec.

(** A [c] element of the worksheet, as far as the reader looks at it: its
    [r] and [t] attributes and its [v] child ([None]: no child;
    [Some None]: a child without text). *)
Record Cell : Type := {
  cell_r : option string;
  cell_t : option string;
  cell_v : option (option string)
}.

(** [_load_shared_strings]: [None] is an archive without the part, an entry
    is the text of the first [t] element under an [si], if any. *)
Definition _load_shared_strings (part : option (list (option string)))
  : list string :=
  match part with
  | Some sis =>
      List.map (fun t => match t with
                         | Some text => if truthy_str text then text else ""
                         | None => ""
                         end) sis
  | None => []
  end.

Definition _parse_cell_value (shared_strings : list string) (cell : Cell)
  : result string :=
  match cell_v cell with
  | None | Some None => Ok ""
  | Some (Some text) =>
      if bool_decide (cell_t cell = Some "s") then
        idx ← of_option ValueError (int_of_str text);
        if (0 <=? idx) && (idx <? Z.of_nat (length shared_strings))
        then Ok (default "" (shared_strings !! Z.to_nat idx))
        else Ok ""
      else Ok text
  end.

(** [max(values_dict.keys()) if values_dict else 0] *)
Definition max_col (values_dict : gmap Z string) : Z :=
  match (map_to_list values_dict).*1 with
  | [] => 0
  | k :: ks => fold_right Z.max k ks
  end.

Definition _parse_row (shared_strings : list string) (cells : list Cell)
  : result (list string) :=
  values_dict ←
    for_each (fun (values_dict : gmap Z string) cell =>
                cell_ref ← of_option TypeError (cell_r cell);
                let col_letter := filter_str isalpha cell_ref in
                let col_num := _col_letter_to_num col_letter in
                value ← _parse_cell_value shared_strings cell;
                Ok (<[col_num := value]> values_dict))
             cells ∅;
  Ok (List.map (fun i => default "" (values_dict !! i))
               (seqZ 0 (max_col values_dict + 1))).

(** The loop that builds one transaction:
    [for i, value in enumerate(row_data): if i < len(headers): ...];
    [headers !! i] is [Some] exactly when [i < len(headers)]. *)
Definition zip_row (headers row_data : list string) : Transaction :=
  fold_left (fun (transaction : Transaction) '(i, value) =>
               match headers !! i with
               | Some h => <[h := value]> transaction
               | None => transaction
               end)
            (imap pair row_data) ∅.

(** [_load_worksheet], from the list of [row] elements of the sheet; [data]
    is [self.data]. *)
Definition _load_worksheet (shared_strings : list string)
    (data : list Transaction) (rows : list (list Cell))
  : result (list Transaction) :=
  if (length rows <? 3)%nat then Ok data
  else
    header_row ← of_option IndexError (rows !! 1%nat);
    headers ← _parse_row shared_strings header_row;
    for_each (fun data row =>
                row_data ← _parse_row shared_strings row;
                let transaction := zip_row headers row_data in
                if truthy (transaction !! "Gateway UUID")
                   || truthy (transaction !! "Transaction ID")
                then Ok (data ++ [transaction])%list
                else Ok data)
             (drop 2 rows) data.

(** [read], on the two parts of the archive already parsed as XML. *)
Definition read (strings_part : option (list (option string)))
    (rows : list (list Cell)) : result (list Transaction) :=
  _load_worksheet (_load_shared_strings strings_part) [] rows.

End ExcelReader.

(* ====================================================================== *)
(** ** FeeDataLoader *)
(* ====================================================================== *)

(** The dictionary stored for one identifier. [load] writes every key of it,
    so the [fees.get(key, 0.0)] of [calculate_icpp] always finds its key. *)
Record FeeRecord : Type := {
  mdr_amount : float;              mdr_currency : option string;
  interchange_amount : float;      interchange_currency : option string;
  scheme_fee_amount : float;       scheme_fee_currency : option string;
  gateway_fee_amount : float;      gateway_fee_currency : option string;
  authorization_amount : float;    authorization_currency : option string;
  clearing_amount : float;         clearing_currency : option string;
  cross_border_amount : float;     cross_border_currency : option string;
  cross_currency_amount : float;   cross_currency_currency : option string;
  preauthorization_amount : float; preauthorization_currency : option string;
  three_ds_amount : float;         three_ds_currency : option string;
  non_three_ds_amount : float;     non_three_ds_currency : option string;
  vat_amount : float;              vat_currency : option string;
  wht_amount : float;              wht_currency : option string;
  grt_amount : float;              grt_currency : option string;
  st_amount : float;               st_currency : option string
}.

(** A row of [csv.DictReader]: a short line leaves its last columns at
    [None]. *)
Abbreviation CsvRow := (gmap string (option string)).
Abbreviation FeeData := (gmap string FeeRecord).

Module FeeDataLoader.
Import Py.

(** [row.get(key)] and [row.get(key, '')] *)
Definition get (row : CsvRow) (key : string) : option string :=
  match row !! key with Some v => v | None => None end.
Definition get_or (row : CsvRow) (key dflt : string) : option string :=
  match row !! key with Some v => v | None => Some dflt end.

Definition _parse_float (value : option string) : float :=
  match value with
  | Some text =>
      if truthy_str text
      then match float_of_str text with Some x => x | None => 0%float end
      else 0%float
  | None => 0%float
  end.

(** The identifier of a row: the [or] chain of [load]. *)
Definition row_txn_id (row : CsvRow) : option string :=
  or_ (get row "NP Transaction ID")
      (or_ (get row "Transaction ID")
           (or_ (get row "Gateway Reference")
                (get row "Gateway UUID"))).

Definition fee_record_of (row : CsvRow) : FeeRecord := {|
  mdr_amount := _parse_float (get_or row "MDR Amount" "");
  mdr_currency := get_or row "MDR Currency" "";
  interchange_amount := _parse_float (get_or row "Interchange Amount" "");
  interchange_currency := get_or row "Interchange Currency" "";
  scheme_fee_amount := _parse_float (get_or row "Scheme Fee Bucket Amount" "");
  scheme_fee_currency := get_or row "Scheme Fee Bucket Currency" "";
  gateway_fee_amount := _parse_float (get_or row "Gateway Fee Amount" "");
  gateway_fee_currency := get_or row "Gateway Fee Currency" "";
  authorization_amount := _parse_float (get_or row "Authorization Amount" "");
  authorization_currency := get_or row "Authorization Currency" "";
  clearing_amount := _parse_float (get_or row "Clearing Amount" "");
  clearing_currency := get_or row "Clearing Currency" "";
  cross_border_amount := _parse_float (get_or row "Cross Border Amount" "");
  cross_border_currency := get_or row "Cross Border Currency" "";
  cross_currency_amount := _parse_float (get_or row "Cross Currency Amount" "");
  cross_currency_currency := get_or row "Cross Currency Currency" "";
  preauthorization_amount := _parse_float (get_or row "Preauthorization Amount" "");
  preauthorization_currency := get_or row "Preauthorization Currency" "";
  three_ds_amount := _parse_float (get_or row "Three Ds Amount" "");
  three_ds_currency := get_or row "Three Ds Currency" "";
  non_three_ds_amount := _parse_float (get_or row "Non Three Ds Amount" "");
  non_three_ds_currency := get_or row "Non Three Ds Currency" "";
  vat_amount := _parse_float (get_or row "VAT Amount" "");
  vat_currency := get_or row "VAT Currency" "";
  wht_amount := _parse_float (get_or row "WHT Amount" "");
  wht_currency := get_or row "WHT Currency" "";
  grt_amount := _parse_float (get_or row "GRT Amount" "");
  grt_currency := get_or row "GRT Currency" "";
  st_amount := _parse_float (get_or row "ST Amount" "");
  st_currency := get_or row "ST Currency" ""
|}.

(** One turn of the loop of [load] on [self.fee_data]. *)
Definition load_row (fee_data : FeeData) (row : CsvRow) : FeeData :=
  let txn_id := row_txn_id row in
  if negb (truthy txn_id) then fee_data
  else match txn_id with
       | Some key => <[key := fee_record_of row]> fee_data
       | None => fee_data
       end.

(** [load]: the rows of the file in order, from the store [fee_data] (the
    constructor sets it to the empty dictionary). *)
Definition load_from (fee_data : FeeData) (rows : list CsvRow) : FeeData :=
  fold_left load_row rows fee_data.

Definition load (rows : list CsvRow) : FeeData := load_from ∅ rows.

End FeeDataLoader.

(* ====================================================================== *)
(** ** Region, breakdown, validity *)
(* ====================================================================== *)

Definition REGION_MAPPING : list (string * string) :=
  [("Hong Kong", "HK"); ("Malaysia", "MY"); ("Thailand", "TH")].

Definition identify_region (merchant card_country : string) : string :=
  match List.find (fun kc => Py.contains (fst kc) merchant) REGION_MAPPING with
  | Some (_, code) => code
  | None =>
      if Py.truthy_str card_country then
        if Py.in_list card_country ["HKG"; "HK"] then "HK"
        else if Py.in_list card_country ["MYS"; "MY"] then "MY"
        else if Py.in_list card_country ["THA"; "TH"] then "TH"
        else "UNKNOWN"
      else "UNKNOWN"
  end.

Record Details : Type := {
  gateway_fee : float;
  authorization_fee : float;
  clearing_fee : float;
  cross_border_fee : float;
  cross_currency_fee : float;
  preauth_fee : float;
  three_ds_fee : float;
  non_three_ds_fee : float;
  vat : float;
  wht : float;
  grt : float;
  st : float;
  net_acquirer_markup : float
}.

Record ICPP : Type := {
  ic : float;
  first_plus : float;
  second_plus : float;
  mdr : float;
  second_plus_details : Details
}.

Definition calculate_icpp (transaction : Transaction) (fees : FeeRecord)
    (region : string) : ICPP :=
  let mdr := mdr_amount fees in
  let interchange := interchange_amount fees in
  let scheme_fee := scheme_fee_amount fees in
  let scheme_fee := if String.eqb region "MY" then 0%float else scheme_fee in
  let gateway_fee := gateway_fee_amount fees in
  let authorization_fee := authorization_amount fees in
  let clearing_fee := clearing_amount fees in
  let cross_border_fee := cross_border_amount fees in
  let cross_currency_fee := cross_currency_amount fees in
  let preauth_fee := preauthorization_amount fees in
  let three_ds_fee := three_ds_amount fees in
  let non_three_ds_fee := non_three_ds_amount fees in
  let vat := vat_amount fees in
  let wht := wht_amount fees in
  let grt := grt_amount fees in
  let st := st_amount fees in
  let second_plus_total := (mdr - interchange - scheme_fee)%float in
  let known_components :=
    (gateway_fee + authorization_fee + clearing_fee +
     cross_border_fee + cross_currency_fee + preauth_fee +
     three_ds_fee + non_three_ds_fee + vat + wht + grt + st)%float in
  let net_acquirer_markup := (second_plus_total - known_components)%float in
  {| ic := interchange;
     first_plus := scheme_fee;
     second_plus := second_plus_total;
     mdr := mdr;
     second_plus_details := {|
       gateway_fee := gateway_fee;
       authorization_fee := authorization_fee;
       clearing_fee := clearing_fee;
       cross_border_fee := cross_border_fee;
       cross_currency_fee := cross_currency_fee;
       preauth_fee := preauth_fee;
       three_ds_fee := three_ds_fee;
       non_three_ds_fee := non_three_ds_fee;
       vat := vat;
       wht := wht;
       grt := grt;
       st := st;
       net_acquirer_markup := net_acquirer_markup
     |}
  |}.

Definition is_valid_transaction (transaction : Transaction) : bool * string :=
  let payment_type := Py.upper (default "" (transaction !! "Payment Type")) in
  if Py.contains "REFUND" payment_type || String.eqb payment_type "RF"
  then (false, "Refund transaction")
  else
    let amount_str := default "0" (transaction !! "Amount") in
    match Py.float_of_str amount_str with
    | None => (false, "Invalid amount")
    | Some amount =>
        if Py.feq amount 0%float then (false, "Zero amount")
        else
          let status := Py.upper (default "" (transaction !! "Processor Status")) in
          if Py.in_list status ["DECLINED"; "FAILED"; "ERROR"]
          then (false, String.append "Status: " status)
          else (true, "")
    end.

(* ====================================================================== *)
(** ** StatisticsAggregator *)
(* ====================================================================== *)

(** An entry of a bucket's [transactions] list. *)
Record TxnRef : Type := {
  ref_id : string;
  ref_amount : float;
  ref_icpp : ICPP
}.

(** A bucket. The four percentage keys do not exist before
    [calculate_percentages] has run: [None]. *)
Record Bucket : Type := {
  count : Z;
  total_volume : float;
  total_ic : float;
  total_first_plus : float;
  total_second_plus : float;
  total_mdr : float;
  currency : string;
  transactions : list TxnRef;
  total_gateway_fee : float;
  total_authorization_fee : float;
  total_clearing_fee : float;
  total_cross_border_fee : float;
  total_cross_currency_fee : float;
  total_preauth_fee : float;
  total_three_ds_fee : float;
  total_non_three_ds_fee : float;
  total_vat : float;
  total_wht : float;
  total_grt : float;
  total_st : float;
  total_net_acquirer_markup : float;
  avg_ic_pct : option float;
  avg_first_plus_pct : option float;
  avg_second_plus_pct : option float;
  avg_mdr_pct : option float
}.

(** [stats[region][card_type]] *)
Abbreviation Stats := (gmap string (gmap string Bucket)).

Module StatisticsAggregator.
Import Py.

Record t : Type := {
  stats : Stats;
  skipped_count : Z;
  skipped_reasons : gmap string Z
}.

(** The value the inner [defaultdict] makes for a missing card type. *)
Definition new_bucket : Bucket := {|
  count := 0;
  total_volume := 0%float;
  total_ic := 0%float;
  total_first_plus := 0%float;
  total_second_plus := 0%float;
  total_mdr := 0%float;
  currency := "";
  transactions := [];
  total_gateway_fee := 0%float;
  total_authorization_fee := 0%float;
  total_clearing_fee := 0%float;
  total_cross_border_fee := 0%float;
  total_cross_currency_fee := 0%float;
  total_preauth_fee := 0%float;
  total_three_ds_fee := 0%float;
  total_non_three_ds_fee := 0%float;
  total_vat := 0%float;
  total_wht := 0%float;
  total_grt := 0%float;
  total_st := 0%float;
  total_net_acquirer_markup := 0%float;
  avg_ic_pct := None;
  avg_first_plus_pct := None;
  avg_second_plus_pct := None;
  avg_mdr_pct := None
|}.

(** [__init__] *)
Definition init : t :=
  {| stats := ∅; skipped_count := 0; skipped_reasons := ∅ |}.

(** The updates [add_transaction] makes to the bucket it has found. *)
Definition update_bucket (bucket : Bucket) (id currency : string)
    (amount : float) (icpp : ICPP) : Bucket :=
  let details := second_plus_details icpp in
  {| count := count bucket + 1;
     total_volume := (total_volume bucket + amount)%float;
     total_ic := (total_ic bucket + ic icpp)%float;
     total_first_plus := (total_first_plus bucket + first_plus icpp)%float;
     total_second_plus := (total_second_plus bucket + second_plus icpp)%float;
     total_mdr := (total_mdr bucket + mdr icpp)%float;
     currency := currency;
     transactions :=
       (transactions bucket
        ++ [{| ref_id := id; ref_amount := amount; ref_icpp := icpp |}])%list;
     total_gateway_fee := (total_gateway_fee bucket + gateway_fee details)%float;
     total_authorization_fee :=
       (total_authorization_fee bucket + authorization_fee details)%float;
     total_clearing_fee := (total_clearing_fee bucket + clearing_fee details)%float;
     total_cross_border_fee :=
       (total_cross_border_fee bucket + cross_border_fee details)%float;
     total_cross_currency_fee :=
       (total_cross_currency_fee bucket + cross_currency_fee details)%float;
     total_preauth_fee := (total_preauth_fee bucket + preauth_fee details)%float;
     total_three_ds_fee := (total_three_ds_fee bucket + three_ds_fee details)%float;
     total_non_three_ds_fee :=
       (total_non_three_ds_fee bucket + non_three_ds_fee details)%float;
     total_vat := (total_vat bucket + vat details)%float;
     total_wht := (total_wht bucket + wht details)%float;
     total_grt := (total_grt bucket + grt details)%float;
     total_st := (total_st bucket + st details)%float;
     total_net_acquirer_markup :=
       (total_net_acquirer_markup bucket + net_acquirer_markup details)%float;
     avg_ic_pct := avg_ic_pct bucket;
     avg_first_plus_pct := avg_first_plus_pct bucket;
     avg_second_plus_pct := avg_second_plus_pct bucket;
     avg_mdr_pct := avg_mdr_pct bucket
  |}.

(** [float(transaction.get('Amount', 0))] *)
Definition amount_of (transaction : Transaction) : result float :=
  match transaction !! "Amount" with
  | Some text => of_option ValueError (float_of_str text)
  | None => Ok (float_of_int 0)
  end.

(** [add_transaction] on the statistics; the two [defaultdict] levels make
    the region and the bucket when they are missing. *)
Definition add_to_stats (stats : Stats) (transaction : Transaction)
    (icpp : ICPP) (region : string) : result Stats :=
  let card_type := upper (default "UNKNOWN" (transaction !! "Card Type")) in
  let currency := default "" (transaction !! "Currency") in
  amount ← amount_of transaction;
  let by_card := default ∅ (stats !! region) in
  let bucket := default new_bucket (by_card !! card_type) in
  let id := default "N/A" (transaction !! "Gateway UUID") in
  let bucket := update_bucket bucket id currency amount icpp in
  Ok (<[region := <[card_type := bucket]> by_card]> stats).

Definition add_transaction (self : t) (transaction : Transaction)
    (icpp : ICPP) (region : string) : result t :=
  stats' ← add_to_stats (stats self) transaction icpp region;
  Ok {| stats := stats';
        skipped_count := skipped_count self;
        skipped_reasons := skipped_reasons self |}.

Definition skip_transaction (self : t) (reason : string) : t :=
  {| stats := stats self;
     skipped_count := skipped_count self + 1;
     skipped_reasons :=
       <[reason := default 0 (skipped_reasons self !! reason) + 1]>
         (skipped_reasons self) |}.

(** The body of the loops of [calculate_percentages] on one bucket. *)
Definition percentages (bucket : Bucket) : Bucket :=
  let volume := total_volume bucket in
  let pct (total : float) : option float :=
    if fgt volume 0%float
    then Some (PrimFloat.abs (total / volume * 100))%float
    else Some 0%float in
  {| count := count bucket;
     total_volume := total_volume bucket;
     total_ic := total_ic bucket;
     total_first_plus := total_first_plus bucket;
     total_second_plus := total_second_plus bucket;
     total_mdr := total_mdr bucket;
     currency := currency bucket;
     transactions := transactions bucket;
     total_gateway_fee := total_gateway_fee bucket;
     total_authorization_fee := total_authorization_fee bucket;
     total_clearing_fee := total_clearing_fee bucket;
     total_cross_border_fee := total_cross_border_fee bucket;
     total_cross_currency_fee := total_cross_currency_fee bucket;
     total_preauth_fee := total_preauth_fee bucket;
     total_three_ds_fee := total_three_ds_fee bucket;
     total_non_three_ds_fee := total_non_three_ds_fee bucket;
     total_vat := total_vat bucket;
     total_wht := total_wht bucket;
     total_grt := total_grt bucket;
     total_st := total_st bucket;
     total_net_acquirer_markup := total_net_acquirer_markup bucket;
     avg_ic_pct := pct (total_ic bucket);
     avg_first_plus_pct := pct (total_first_plus bucket);
     avg_second_plus_pct := pct (total_second_plus bucket);
     avg_mdr_pct := pct (total_mdr bucket)
  |}.

Definition calculate_percentages (self : t) : t :=
  {| stats := fmap (M := gmap string) (fmap (M := gmap string) percentages) (stats self);
     skipped_count := skipped_count self;
     skipped_reasons := skipped_reasons self |}.

(** [stats[region][card_type]] read without creating anything. *)
Definition bucket_at (stats : Stats) (region card_type : string) : option Bucket :=
  by_card ← stats !! region; by_card !! card_type.

End StatisticsAggregator.

(* ====================================================================== *)
(** ** main: the loop over the transactions *)
(* ====================================================================== *)

Module Main.
Import Py StatisticsAggregator.

(** The identifier the loop looks up in the fee data. *)
Definition txn_id_of (transaction : Transaction) : option string :=
  or_ (transaction !! "Transaction ID")
      (or_ (transaction !! "Gateway UUID")
           (transaction !! "Gateway Reference")).

(** [fee_data[txn_id]] when [txn_id in fee_data]; [None] is no key. *)
Definition fee_lookup (fee_data : FeeData) (txn_id : option string)
  : option FeeRecord :=
  match txn_id with
  | Some key => fee_data !! key
  | None => None
  end.

(** The body of the loop of [main]. *)
Definition process (fee_data : FeeData) (aggregator : StatisticsAggregator.t)
    (transaction : Transaction) : result StatisticsAggregator.t :=
  let txn_id := txn_id_of transaction in
  let '(is_valid, reason) := is_valid_transaction transaction in
  if negb is_valid then Ok (skip_transaction aggregator reason)
  else
    match fee_lookup fee_data txn_id with
    | None => Ok (skip_transaction aggregator "Missing fee data")
    | Some fees =>
        if feq (mdr_amount fees) 0%float
        then Ok (skip_transaction aggregator "Zero MDR")
        else
          let merchant := default "" (transaction !! "Merchant") in
          let card_country := default "" (transaction !! "Card Country") in
          let region := identify_region merchant card_country in
          let icpp := calculate_icpp transaction fees region in
          add_transaction aggregator transaction icpp region
    end.

(** Steps 3 and 4 of [main]: the loop, then the percentages. *)
Definition run (fee_data : FeeData) (transactions : list Transaction)
  : result StatisticsAggregator.t :=
  aggregator ← for_each (process fee_data) transactions init;
  Ok (calculate_percentages aggregator).

(** Steps 1 to 4, from the parsed inputs. *)
Definition main (strings_part : option (list (option string)))
    (sheet_rows : list (list ExcelReader.Cell)) (csv_rows : list CsvRow)
  : result StatisticsAggregator.t :=
  transactions ← ExcelReader.read strings_part sheet_rows;
  run (FeeDataLoader.load csv_rows) transactions.

End Main.

(** The accumulation of a list of validated triples, in order. *)
Definition accumulate (triples : list (Transaction * ICPP * string))
    (stats : Stats) : result Stats :=
  for_each (fun stats '(transaction, icpp, region) =>
              StatisticsAggregator.add_to_stats stats transaction icpp region)
           triples stats.

(* ====================================================================== *)
(** ** Notions used in the statements *)
(* ====================================================================== *)

Module Statement.
Import Py.

(** The first non-empty value of a list of values that are [None] or a
    string, if there is one. *)
Fixpoint first_nonempty (values : list (option string)) : option string :=
  match values with
  | [] => None
  | v :: r => if truthy v then v else first_nonempty r
  end.

(** The values of a transaction under the given column names, in order. *)
Definition fields (transaction : Transaction) (names : list string)
  : list (option string) :=
  List.map (fun name => transaction !! name) names.

(** The order in which the loop of [main] consults the identifier columns,
    and the order the data model announces. *)
Definition lookup_order : list string :=
  ["Transaction ID"; "Gateway UUID"; "Gateway Reference"].
Definition announced_order : list string :=
  ["Gateway UUID"; "Transaction ID"; "Gateway Reference"].

(** A percentage that is zero only on a zero volume. *)
Definition pct_zero_volume (total volume : float) : float :=
  if feq volume 0%float then 0%float
  else PrimFloat.abs (total / volume * 100)%float.

(** A percentage that is zero on every volume that is not positive. *)
Definition pct_positive_volume (total volume : float) : float :=
  if fgt volume 0%float then PrimFloat.abs (total / volume * 100)%float
  else 0%float.

(** The sums a bucket holds: its count and its totals. *)
Definition sums (b : Bucket) : Z * list float :=
  (count b,
   [total_volume b; total_ic b; total_first_plus b; total_second_plus b;
    total_mdr b; total_gateway_fee b; total_authorization_fee b;
    total_clearing_fee b; total_cross_border_fee b;
    total_cross_currency_fee b; total_preauth_fee b; total_three_ds_fee b;
    total_non_three_ds_fee b; total_vat b; total_wht b; total_grt b;
    total_st b; total_net_acquirer_markup b]).

(** The bucket a triple goes to. *)
Definition card_type_of (transaction : Transaction) : string :=
  upper (default "UNKNOWN" (transaction !! "Card Type")).

Definition in_bucket (region card_type : string)
    (triple : Transaction * ICPP * string) : bool :=
  String.eqb (snd triple) region
  && String.eqb (card_type_of (fst (fst triple))) card_type.

(** What a triple does to the bucket it goes to, [None] being a bucket that
    does not exist yet. *)
Definition bucket_step (bucket : option Bucket)
    (triple : Transaction * ICPP * string) : option Bucket :=
  let transaction := fst (fst triple) in
  match StatisticsAggregator.amount_of transaction with
  | Ok amount =>
      Some (StatisticsAggregator.update_bucket
              (default StatisticsAggregator.new_bucket bucket)
              (default "N/A" (transaction !! "Gateway UUID"))
              (default "" (transaction !! "Currency"))
              amount (snd (fst triple)))
  | Raise _ => bucket
  end.

End Statement.

(** *** Inputs of the examples *)

Module Sample.

Definition cell (ref text : string) : ExcelReader.Cell :=
  {| ExcelReader.cell_r := Some ref;
     ExcelReader.cell_t := None;
     ExcelReader.cell_v := Some (Some text) |}.

(** A fee row whose gateway fee exceeds what is left of the MDR. *)
Definition costly_row : CsvRow :=
  list_to_map [("NP Transaction ID", Some "T9"); ("MDR Amount", Some "1.00");
               ("Interchange Amount", Some "0.50");
               ("Scheme Fee Bucket Amount", Some "0.25");
               ("Gateway Fee Amount", Some "2.00")].

(** Two fee rows with the same identifier, and a row without any. *)
Definition first_x : CsvRow :=
  list_to_map [("NP Transaction ID", Some "X"); ("MDR Amount", Some "1.00")].
Definition second_x : CsvRow :=
  list_to_map [("NP Transaction ID", Some "X"); ("MDR Amount", Some "2.00")].
Definition anonymous : CsvRow :=
  list_to_map [("NP Transaction ID", Some ""); ("MDR Amount", Some "9.00")].

(** A sheet whose only data row stops after its first cell. *)
Definition headers : list string :=
  ["Gateway UUID"; "Merchant"; "Amount"; "Currency"; "Card Type";
   "Payment Type"; "Processor Status"; "Card Country"].
Definition header_row : list ExcelReader.Cell :=
  [cell "A2" "Gateway UUID"; cell "B2" "Merchant"; cell "C2" "Amount";
   cell "D2" "Currency"; cell "E2" "Card Type"; cell "F2" "Payment Type";
   cell "G2" "Processor Status"; cell "H2" "Card Country"].
Definition short_sheet : list (list ExcelReader.Cell) :=
  [[cell "A1" "Merchant Funding Transactions"]; header_row; [cell "A3" "T1"]].

(** A settled transaction of amount -100 and its fee row. *)
Definition reversal : Transaction :=
  list_to_map [("Gateway UUID", "T1"); ("Merchant", "Hong Kong Store");
               ("Amount", "-100"); ("Currency", "HKD"); ("Card Type", "VISA");
               ("Payment Type", "SALE"); ("Processor Status", "APPROVED");
               ("Card Country", "HKG")].
Definition fee_t1 : CsvRow :=
  list_to_map [("NP Transaction ID", Some "T1"); ("MDR Amount", Some "3.00");
               ("Interchange Amount", Some "1.50");
               ("Scheme Fee Bucket Amount", Some "0.30");
               ("Gateway Fee Amount", Some "0.10")].

(** A bucket after one transaction, and statistics that hold it. *)
Definition settled_bucket : Bucket :=
  StatisticsAggregator.update_bucket StatisticsAggregator.new_bucket
    "T1" "HKD" 100%float
    (calculate_icpp ∅ (FeeDataLoader.fee_record_of fee_t1) "HK").
Definition one_bucket : StatisticsAggregator.t :=
  {| StatisticsAggregator.stats := {[ "HK" := {[ "VISA" := settled_bucket ]} ]};
     StatisticsAggregator.skipped_count := 0;
     StatisticsAggregator.skipped_reasons := ∅ |}.

(** Validated triples: three of one bucket, and one of another. *)
Definition triple (region card_type amount : string)
  : Transaction * ICPP * string :=
  (list_to_map [("Gateway UUID", "T1"); ("Amount", amount);
                ("Currency", "HKD"); ("Card Type", card_type)],
   calculate_icpp ∅ (FeeDataLoader.fee_record_of fee_t1) region,
   region).
Definition ta := triple "HK" "VISA" "0.1".
Definition tb := triple "HK" "VISA" "0.2".
Definition tc := triple "HK" "VISA" "0.3".
Definition tm := triple "MY" "MASTERCARD" "50".

(** The sheet of the end-to-end scenario, for a merchant and a card
    country, and what is read off the bucket it fills. *)
Definition scenario_sheet (merchant card_country : string)
  : list (list ExcelReader.Cell) :=
  [[cell "A1" "Merchant Funding Transactions"]; header_row;
   [cell "A3" "T1"; cell "B3" merchant; cell "C3" "100"; cell "D3" "HKD";
    cell "E3" "VISA"; cell "F3" "SALE"; cell "G3" "APPROVED";
    cell "H3" card_country]].

Definition scenario_totals (outcome : result StatisticsAggregator.t)
    (region card_type : string) : option (Z * list float) :=
  match outcome with
  | Ok aggregator =>
      b ← StatisticsAggregator.bucket_at
             (StatisticsAggregator.stats aggregator) region card_type;
      Some (count b,
            [total_volume b; total_ic b; total_first_plus b;
             total_second_plus b; total_gateway_fee b; total_mdr b])
  | Raise _ => None
  end.

(** A refund whose amount does not parse. *)
Definition refund : Transaction :=
  list_to_map [("Gateway UUID", "T2"); ("Payment Type", "Refund");
               ("Amount", "n/a")].

(** A transaction that carries two different identifiers. *)
Definition two_ids : Transaction :=
  list_to_map [("Gateway UUID", "U-1"); ("Transaction ID", "T-1")].

End Sample.

(* ====================================================================== *)
(** ** ReportGenerator: the figures the reports take from the statistics *)
(* ====================================================================== *)

Module ReportGenerator.

(** [sum(f(v) for v in d.values())] for integers. *)
Definition dict_sum {A : Type} (f : A -> Z) (d : gmap string A) : Z :=
  map_fold (fun _ v acc => f v + acc) 0 d.

(** [total_transactions] of the console and HTML reports:
    [sum(bucket['count'] for region in stats.values()
                         for bucket in region.values())] *)
Definition total_transactions (stats : Stats) : Z :=
  dict_sum (dict_sum count) stats.

(** [total_regions = len(stats)] *)
Definition total_regions (stats : Stats) : nat := size stats.

(** [region_order] of [print_console_report], and the regions it prints:
    [for region_code in region_order: if region_code not in stats: continue]. *)
Definition region_order : list string := ["HK"; "MY"; "TH"; "UNKNOWN"].

Definition printed_regions (stats : Stats) : list string :=
  List.filter (fun region_code => bool_decide (is_Some (stats !! region_code)))
              region_order.

End ReportGenerator.

(* ====================================================================== *)
(** ** Further notions used in the statements *)
(* ====================================================================== *)

Module Notion.
Import Py.

(** The column a cell goes to in [_parse_row], when it has an [r]
    attribute. *)
Definition column_of (cell : ExcelReader.Cell) : option Z :=
  (fun cell_ref => ColumnCodec._col_letter_to_num (filter_str isalpha cell_ref))
    <$> ExcelReader.cell_r cell.

(** The text of a cell whose value parses. *)
Definition cell_text (shared_strings : list string) (cell : ExcelReader.Cell)
  : string :=
  match ExcelReader._parse_cell_value shared_strings cell with
  | Ok value => value
  | Raise _ => ""
  end.

(** The body of the loop of [_parse_row] over the cells. *)
Definition row_body (shared_strings : list string)
    (values_dict : gmap Z string) (cell : ExcelReader.Cell)
  : result (gmap Z string) :=
  cell_ref ← of_option TypeError (ExcelReader.cell_r cell);
  let col_letter := filter_str isalpha cell_ref in
  let col_num := ColumnCodec._col_letter_to_num col_letter in
  value ← ExcelReader._parse_cell_value shared_strings cell;
  Ok (<[col_num := value]> values_dict).

(** The test that keeps a transaction in [_load_worksheet]. *)
Definition has_identifier (transaction : Transaction) : bool :=
  truthy (transaction !! "Gateway UUID")
  || truthy (transaction !! "Transaction ID").

(** The body of the loop of [_load_worksheet] over the data rows. *)
Definition worksheet_body (shared_strings headers : list string)
    (data : list Transaction) (row : list ExcelReader.Cell)
  : result (list Transaction) :=
  row_data ← ExcelReader._parse_row shared_strings row;
  let transaction := ExcelReader.zip_row headers row_data in
  if truthy (transaction !! "Gateway UUID")
     || truthy (transaction !! "Transaction ID")
  then Ok (data ++ [transaction])%list
  else Ok data.


(** What a fee record stored for a row holds: under an amount key the number
    written in the column of the row, 0.0 when the column is missing, empty
    or not a number; under a currency key the text of the column, the empty
    string when the column is missing. *)
Definition amount_in (row : CsvRow) (column : string) : float :=
  match row !! column with
  | Some (Some text) =>
      match float_of_str text with Some x => x | None => 0%float end
  | _ => 0%float
  end.

Definition text_in (row : CsvRow) (column : string) : option string :=
  match row !! column with Some v => v | None => Some "" end.

Definition carries (record : FeeRecord) (row : CsvRow) : Prop :=
  mdr_amount record = amount_in row "MDR Amount"
  /\ mdr_currency record = text_in row "MDR Currency"
  /\ interchange_amount record = amount_in row "Interchange Amount"
  /\ interchange_currency record = text_in row "Interchange Currency"
  /\ scheme_fee_amount record = amount_in row "Scheme Fee Bucket Amount"
  /\ scheme_fee_currency record = text_in row "Scheme Fee Bucket Currency"
  /\ gateway_fee_amount record = amount_in row "Gateway Fee Amount"
  /\ gateway_fee_currency record = text_in row "Gateway Fee Currency"
  /\ authorization_amount record = amount_in row "Authorization Amount"
  /\ authorization_currency record = text_in row "Authorization Currency"
  /\ clearing_amount record = amount_in row "Clearing Amount"
  /\ clearing_currency record = text_in row "Clearing Currency"
  /\ cross_border_amount record = amount_in row "Cross Border Amount"
  /\ cross_border_currency record = text_in row "Cross Border Currency"
  /\ cross_currency_amount record = amount_in row "Cross Currency Amount"
  /\ cross_currency_currency record = text_in row "Cross Currency Currency"
  /\ preauthorization_amount record = amount_in row "Preauthorization Amount"
  /\ preauthorization_currency record = text_in row "Preauthorization Currency"
  /\ three_ds_amount record = amount_in row "Three Ds Amount"
  /\ three_ds_currency record = text_in row "Three Ds Currency"
  /\ non_three_ds_amount record = amount_in row "Non Three Ds Amount"
  /\ non_three_ds_currency record = text_in row "Non Three Ds Currency"
  /\ vat_amount record = amount_in row "VAT Amount"
  /\ vat_currency record = text_in row "VAT Currency"
  /\ wht_amount record = amount_in row "WHT Amount"
  /\ wht_currency record = text_in row "WHT Currency"
  /\ grt_amount record = amount_in row "GRT Amount"
  /\ grt_currency record = text_in row "GRT Currency"
  /\ st_amount record = amount_in row "ST Amount"
  /\ st_currency record = text_in row "ST Currency".

(** The order in which [load] consults the identifier columns of a row. *)
Definition row_id_order : list string :=
  ["NP Transaction ID"; "Transaction ID"; "Gateway Reference"; "Gateway UUID"].

(** The float sum of a list, added left to right from 0.0. *)
Definition fsum (l : list float) : float := fold_left PrimFloat.add l 0%float.

(** A bucket whose count and totals are those of its [transactions] list. *)
Definition totals_of_refs (b : Bucket) : Prop :=
  let refs := transactions b in
  let icpps := ref_icpp <$> refs in
  let details := second_plus_details <$> icpps in
  count b = Z.of_nat (length refs)
  /\ total_volume b = fsum (ref_amount <$> refs)
  /\ total_ic b = fsum (ic <$> icpps)
  /\ total_first_plus b = fsum (first_plus <$> icpps)
  /\ total_second_plus b = fsum (second_plus <$> icpps)
  /\ total_mdr b = fsum (mdr <$> icpps)
  /\ total_gateway_fee b = fsum (gateway_fee <$> details)
  /\ total_authorization_fee b = fsum (authorization_fee <$> details)
  /\ total_clearing_fee b = fsum (clearing_fee <$> details)
  /\ total_cross_border_fee b = fsum (cross_border_fee <$> details)
  /\ total_cross_currency_fee b = fsum (cross_currency_fee <$> details)
  /\ total_preauth_fee b = fsum (preauth_fee <$> details)
  /\ total_three_ds_fee b = fsum (three_ds_fee <$> details)
  /\ total_non_three_ds_fee b = fsum (non_three_ds_fee <$> details)
  /\ total_vat b = fsum (vat <$> details)
  /\ total_wht b = fsum (wht <$> details)
  /\ total_grt b = fsum (grt <$> details)
  /\ total_st b = fsum (st <$> details)
  /\ total_net_acquirer_markup b = fsum (net_acquirer_markup <$> details).

(** What holds of every bucket, and of every region, of statistics that
    the loop of [main] has built. *)
Definition well_formed (s : Stats) : Prop :=
  (forall r c b, StatisticsAggregator.bucket_at s r c = Some b ->
                 totals_of_refs b /\ 1 <= count b)
  /\ (forall r by_card, s !! r = Some by_card -> by_card <> ∅).

(** The number of transactions an aggregator has seen. *)
Definition seen (aggregator : StatisticsAggregator.t) : Z :=
  StatisticsAggregator.skipped_count aggregator
  + ReportGenerator.total_transactions (StatisticsAggregator.stats aggregator).

End Notion.

(** *** Further inputs of the examples *)

Module Fixture.


(** A row with a gap at column B and two cells for column C. *)
Definition gappy_row : list ExcelReader.Cell :=
  [Sample.cell "A3" "T1"; Sample.cell "C3" "old"; Sample.cell "c3" "new"].

(** A sale without any identifier of the lookup chain. *)
Definition nameless_sale : Transaction :=
  list_to_map [("Amount", "10"); ("Payment Type", "SALE")].

(** A sale that matches [Sample.fee_t1] by its Transaction ID, in Malaysia. *)
Definition malaysian_sale : Transaction :=
  list_to_map [("Transaction ID", "T1"); ("Merchant", "Malaysia Store");
               ("Amount", "100"); ("Currency", "MYR"); ("Card Type", "visa");
               ("Payment Type", "SALE"); ("Card Country", "MYS")].

(** Two fee rows for the identifier X that differ in every column they
    have, with a row without identifier between them. *)
Definition earlier_x : CsvRow :=
  list_to_map [("NP Transaction ID", Some "X"); ("MDR Amount", Some "1.00");
               ("MDR Currency", Some "HKD"); ("Interchange Amount", Some "0.40");
               ("VAT Amount", Some "0.07")].
Definition later_x : CsvRow :=
  list_to_map [("NP Transaction ID", Some "X"); ("MDR Amount", Some "2.00");
               ("MDR Currency", Some "MYR"); ("Interchange Amount", Some "0.90");
               ("ST Amount", Some "n/a")].



End Fixture.

(* ====================================================================== *)
(** ** Properties *)
(* ====================================================================== *)

(** *** Column letters *)

Section ColumnLetters.
Import Py ColumnCodec.

Lemma letter_value_digit (c : ascii) (d : Z) :
  letter_value c = Some d -> ord (upper_char c) - ord "A" + 1 = d /\ 1 <= d <= 26.
Proof.
  destruct c as [[] [] [] [] [] [] [] []]; vm_compute; intros H;
    try discriminate H; injection H as <-; repeat split; discriminate.
Qed.

Lemma upper_char_idem (c : ascii) : upper_char (upper_char c) = upper_char c.
Proof. destruct c as [[] [] [] [] [] [] [] []]; reflexivity. Qed.

Lemma upper_lower_char (c : ascii) : upper_char (lower_char c) = upper_char c.
Proof. destruct c as [[] [] [] [] [] [] [] []]; reflexivity. Qed.

Lemma fold_step_numeral (s : string) :
  forall (ds : list Z) (acc : Z),
    letter_values s = Some ds ->
    fold_left step (list_ascii_of_string s) acc
    = acc * 26 ^ Z.of_nat (length ds) + numeral26 ds.
Proof.
  induction s as [|c r IH]; intros ds acc H; simpl in H.
  - injection H as <-. simpl. lia.
  - destruct (letter_value c) as [d|] eqn:Hc; [|discriminate H].
    destruct (letter_values r) as [ds'|] eqn:Hr; [|discriminate H].
    injection H as <-.
    apply letter_value_digit in Hc as [Hc _].
    cbn [list_ascii_of_string fold_left].
    rewrite (IH ds' (step acc c) eq_refl).
    unfold step. rewrite Hc.
    cbn [numeral26 length]. rewrite Nat2Z.inj_succ, Z.pow_succ_r by lia.
    ring.
Qed.

Lemma fold_step_ext (f : ascii -> ascii) (s : string) :
  (forall c, upper_char (f c) = upper_char c) ->
  forall acc, fold_left step (list_ascii_of_string (map_str f s)) acc
              = fold_left step (list_ascii_of_string s) acc.
Proof.
  intros Hf. induction s as [|c r IH]; intros acc; [reflexivity|].
  cbn [map_str list_ascii_of_string fold_left].
  rewrite IH. unfold step. now rewrite Hf.
Qed.

End ColumnLetters.

(** C4: on a string of letters [_col_letter_to_num] is the value of the
    string read as a base-26 numeral, letters [A]..[Z] standing for the digits
    1..26 and the most significant letter first, less one; the case of the
    letters does not matter; and A, Z, AA, AZ, BA give 0, 25, 26, 51, 52. *)
Theorem col_letter_to_num_base26 (s : string) (ds : list Z) :
  ColumnCodec.letter_values s = Some ds ->
  ColumnCodec._col_letter_to_num s = ColumnCodec.numeral26 ds - 1
  /\ ColumnCodec._col_letter_to_num (Py.upper s) = ColumnCodec._col_letter_to_num s
  /\ ColumnCodec._col_letter_to_num (Py.lower s) = ColumnCodec._col_letter_to_num s
  /\ ColumnCodec._col_letter_to_num "A" = 0
  /\ ColumnCodec._col_letter_to_num "Z" = 25
  /\ ColumnCodec._col_letter_to_num "AA" = 26
  /\ ColumnCodec._col_letter_to_num "AZ" = 51
  /\ ColumnCodec._col_letter_to_num "BA" = 52.
Proof.
  intros H. unfold ColumnCodec._col_letter_to_num.
  split; [|split; [|split]].
  - rewrite (fold_step_numeral s ds 0 H). lia.
  - unfold Py.upper. now rewrite (fold_step_ext _ s upper_char_idem).
  - unfold Py.lower. now rewrite (fold_step_ext _ s upper_lower_char).
  - repeat split.
Qed.

Lemma col_letter_to_num_base26_witness :
  ColumnCodec.letter_values "bA" = Some [2; 1]
  /\ ColumnCodec._col_letter_to_num "bA" = ColumnCodec.numeral26 [2; 1] - 1.
Proof.
  split; [reflexivity|].
  exact (proj1 (col_letter_to_num_base26 "bA" [2; 1] eq_refl)).
Defined.

(** *** The fee waterfall *)

(** C1: for every fee record and region the breakdown has
    [second_plus = mdr_amount - interchange_amount - first_plus] and
    [net_acquirer_markup = second_plus - (sum of the twelve sub-fees)], in
    the arithmetic of the program; nothing clamps the result, as on a record
    whose gateway fee is larger than its second plus, where the markup
    is -1.75. *)
Theorem calculate_icpp_waterfall (transaction : Transaction)
    (fees : FeeRecord) (region : string) :
  let b := calculate_icpp transaction fees region in
  let d := second_plus_details b in
  second_plus b = (mdr_amount fees - interchange_amount fees - first_plus b)%float
  /\ net_acquirer_markup d
     = (second_plus b
        - (gateway_fee_amount fees + authorization_amount fees
           + clearing_amount fees + cross_border_amount fees
           + cross_currency_amount fees + preauthorization_amount fees
           + three_ds_amount fees + non_three_ds_amount fees
           + vat_amount fees + wht_amount fees + grt_amount fees
           + st_amount fees))%float
  /\ net_acquirer_markup
       (second_plus_details
          (calculate_icpp transaction
             (FeeDataLoader.fee_record_of Sample.costly_row) "HK"))
     = (-1.75)%float.
Proof.
  cbv zeta. split; [reflexivity|]. split; [reflexivity|].
  vm_compute. reflexivity.
Qed.

(** C2: in region MY the first plus is 0 whatever scheme fee the fee record
    carries; in every other region it is the scheme fee of the record. *)
Theorem first_plus_my_waiver (transaction : Transaction) (fees : FeeRecord)
    (region : string) :
  (region = "MY" ->
   first_plus (calculate_icpp transaction fees region) = 0%float)
  /\ (region <> "MY" ->
      first_plus (calculate_icpp transaction fees region)
      = scheme_fee_amount fees).
Proof.
  unfold calculate_icpp; cbn [first_plus].
  split; intros H.
  - now rewrite (proj2 (String.eqb_eq region "MY") H).
  - now rewrite (proj2 (String.eqb_neq region "MY") H).
Qed.

Lemma first_plus_my_waiver_witness :
  first_plus (calculate_icpp ∅ (FeeDataLoader.fee_record_of Sample.costly_row) "MY")
  = 0%float
  /\ first_plus (calculate_icpp ∅ (FeeDataLoader.fee_record_of Sample.costly_row) "TH")
     = scheme_fee_amount (FeeDataLoader.fee_record_of Sample.costly_row).
Proof.
  split.
  - apply (proj1 (first_plus_my_waiver ∅ _ "MY")). reflexivity.
  - apply (proj2 (first_plus_my_waiver ∅ _ "TH")). discriminate.
Defined.

(** *** The identifier of a transaction *)

(** C3, as announced: the identifier would be the first non-empty value among
    Gateway UUID, Transaction ID, Gateway Reference. A transaction that has
    both a Gateway UUID and a Transaction ID is looked up under its
    Transaction ID. *)
Lemma txn_id_announced_order_fails :
  ~ (forall transaction : Transaction,
        match Statement.first_nonempty
                (Statement.fields transaction Statement.announced_order) with
        | Some id => Main.txn_id_of transaction = Some id
        | None => Py.truthy (Main.txn_id_of transaction) = false
        end).
Proof.
  intros H. specialize (H Sample.two_ids).
  vm_compute in H. discriminate H.
Qed.

(** C3, amended: the identifier looked up in the fee data is the first
    non-empty value among Transaction ID, Gateway UUID, Gateway Reference, in
    that order; when none of them is non-empty it is [None] or the empty
    string. *)
Theorem txn_id_lookup_order (transaction : Transaction) :
  match Statement.first_nonempty
          (Statement.fields transaction Statement.lookup_order) with
  | Some id => Main.txn_id_of transaction = Some id
  | None => Py.truthy (Main.txn_id_of transaction) = false
  end.
Proof.
  unfold Main.txn_id_of, Statement.fields, Statement.lookup_order, Py.or_.
  cbn [List.map Statement.first_nonempty].
  destruct (transaction !! "Transaction ID") as [a|] eqn:Ha;
    destruct (transaction !! "Gateway UUID") as [b|] eqn:Hb;
    destruct (transaction !! "Gateway Reference") as [c|] eqn:Hc;
    try destruct a; try destruct b; try destruct c; reflexivity.
Qed.

(** *** The validity filter *)

(** C5: a transaction whose upper-cased Payment Type contains REFUND or is
    RF is rejected with the reason "Refund transaction", by the filter and by
    the loop of [main], whatever its amount, its status and the fee data. *)
Theorem refund_is_rejected_first (transaction : Transaction) :
  let payment_type := Py.upper (default "" (transaction !! "Payment Type")) in
  Py.contains "REFUND" payment_type = true \/ payment_type = "RF" ->
  is_valid_transaction transaction = (false, "Refund transaction")
  /\ forall (fee_data : FeeData) (aggregator : StatisticsAggregator.t),
      Main.process fee_data aggregator transaction
      = Ok (StatisticsAggregator.skip_transaction aggregator "Refund transaction").
Proof.
  cbv zeta. intros H.
  assert (Hv : is_valid_transaction transaction = (false, "Refund transaction")).
  { unfold is_valid_transaction.
    destruct H as [H|H]; rewrite H; [reflexivity|].
    now rewrite orb_true_r. }
  split; [exact Hv|].
  intros fee_data aggregator. unfold Main.process. now rewrite Hv.
Qed.

Lemma refund_is_rejected_first_witness :
  is_valid_transaction Sample.refund = (false, "Refund transaction").
Proof.
  apply (refund_is_rejected_first Sample.refund).
  left. vm_compute. reflexivity.
Defined.

(** *** A worksheet without data rows *)

(** C10: with fewer than three row elements [_load_worksheet] returns
    without raising and adds no transaction, so that [read] gives the empty
    list and the run ends with no bucket. *)
Theorem short_worksheet_is_empty (shared_strings : list string)
    (data : list Transaction) (rows : list (list ExcelReader.Cell)) :
  (length rows < 3)%nat ->
  ExcelReader._load_worksheet shared_strings data rows = Ok data
  /\ (forall strings_part, ExcelReader.read strings_part rows = Ok [])
  /\ (forall strings_part csv_rows,
        exists aggregator,
          Main.main strings_part rows csv_rows = Ok aggregator
          /\ StatisticsAggregator.stats aggregator = ∅).
Proof.
  intros H.
  assert (Hl : forall sh d, ExcelReader._load_worksheet sh d rows = Ok d).
  { intros sh d. unfold ExcelReader._load_worksheet.
    now rewrite (proj2 (Nat.ltb_lt _ _) H). }
  split; [apply Hl|]. split.
  - intros sp. unfold ExcelReader.read. apply Hl.
  - intros sp csv. eexists. split.
    + unfold Main.main, ExcelReader.read. rewrite Hl. reflexivity.
    + cbn. apply fmap_empty.
Qed.

Lemma short_worksheet_is_empty_witness :
  ExcelReader.read None
    [[Sample.cell "A1" "Report"];
     [Sample.cell "A2" "Gateway UUID"; Sample.cell "B2" "Amount"]]
  = Ok [].
Proof.
  apply (short_worksheet_is_empty [] []); simpl; lia.
Defined.

(** *** The fee store *)

Section FeeStore.
Import Py FeeDataLoader.

Lemma load_row_lookup (fee_data : FeeData) (row : CsvRow) (id : string) :
  load_row fee_data row !! id
  = if decide (row_txn_id row = Some id /\ truthy_str id = true)
    then Some (fee_record_of row)
    else fee_data !! id.
Proof.
  unfold load_row.
  destruct (row_txn_id row) as [key|] eqn:Hk; cbn [truthy negb].
  - destruct (truthy_str key) eqn:Ht; cbn [negb].
    + destruct (decide (key = id)) as [->|Hne].
      * rewrite lookup_insert_eq. rewrite decide_True; [reflexivity|]. now split.
      * rewrite lookup_insert_ne by exact Hne.
        rewrite decide_False; [reflexivity|]. intros [[=] _]. contradiction.
    + rewrite decide_False; [reflexivity|]. intros [[= ->] Ht']. congruence.
  - rewrite decide_False; [reflexivity|]. intros [[=] _].
Qed.

Lemma load_from_lookup (rows : list CsvRow) :
  forall (fee_data : FeeData) (id : string),
    load_from fee_data rows !! id
    = match last (filter (fun row => row_txn_id row = Some id /\ truthy_str id = true)
                         rows) with
      | Some row => Some (fee_record_of row)
      | None => fee_data !! id
      end.
Proof.
  induction rows as [|row rows IH]; intros fee_data id; [reflexivity|].
  unfold load_from in *. cbn [fold_left]. rewrite IH, load_row_lookup.
  destruct (decide (row_txn_id row = Some id /\ truthy_str id = true)) as [H|H].
  - rewrite filter_cons_True by exact H.
    rewrite last_cons. now destruct (last _).
  - now rewrite filter_cons_False by exact H.
Qed.

Lemma load_lookup (rows : list CsvRow) (id : string) :
  load rows !! id
  = if truthy_str id
    then fee_record_of <$> last (filter (fun row => row_txn_id row = Some id) rows)
    else None.
Proof.
  unfold load. rewrite load_from_lookup, lookup_empty.
  destruct (truthy_str id) eqn:Ht.
  - rewrite (list_filter_iff _ (fun row => row_txn_id row = Some id)).
    + now destruct (last _).
    + intros row. tauto.
  - destruct (last _) as [row|] eqn:Hl; [|reflexivity].
    apply last_Some_elem_of, list_elem_of_filter in Hl as [[_ Hl] _].
    congruence.
Qed.

End FeeStore.

Section FeeRecordValues.
Import Py FeeDataLoader Notion.

Lemma parse_float_amount_in (row : CsvRow) (column : string) :
  _parse_float (get_or row column "") = amount_in row column.
Proof.
  unfold _parse_float, get_or, amount_in.
  destruct (row !! column) as [[text|]|]; [|reflexivity|reflexivity].
  destruct text as [|c text]; reflexivity.
Qed.

Lemma fee_record_of_carries (row : CsvRow) : carries (fee_record_of row) row.
Proof.
  unfold carries, fee_record_of.
  cbn [mdr_amount mdr_currency interchange_amount interchange_currency
       scheme_fee_amount scheme_fee_currency gateway_fee_amount
       gateway_fee_currency authorization_amount authorization_currency
       clearing_amount clearing_currency cross_border_amount
       cross_border_currency cross_currency_amount cross_currency_currency
       preauthorization_amount preauthorization_currency three_ds_amount
       three_ds_currency non_three_ds_amount non_three_ds_currency vat_amount
       vat_currency wht_amount wht_currency grt_amount grt_currency st_amount
       st_currency].
  rewrite !parse_float_amount_in. repeat split.
Qed.

End FeeRecordValues.

(** C6: the store that [load] returns holds at most one record per
    identifier; the record of an identifier is the one of the last row that
    resolves to it, so that of two such rows the later one is kept, and the
    record kept holds the values of that later row: under every amount key
    the number of the row's column (0.0 when the column is missing, empty or
    not a number) and under every currency key the text of the row's column;
    a row that resolves to no identifier leaves no trace. On two rows for X
    with the MDR amounts 1.00 and 2.00, the record stored for X has the MDR
    amount 2.0, the currency and the interchange amount of the second row,
    and 0.0 for the VAT amount that only the first row has. *)
Theorem fee_store_last_row_wins (rows : list CsvRow) :
  let store := FeeDataLoader.load rows in
  NoDup (map_to_list store).*1
  /\ (forall id : string,
        store !! id
        = if Py.truthy_str id
          then FeeDataLoader.fee_record_of
                 <$> last (filter (fun row => FeeDataLoader.row_txn_id row = Some id)
                                  rows)
          else None)
  /\ (forall (l1 l2 l3 : list CsvRow) (r1 r2 : CsvRow) (id : string),
        rows = (l1 ++ r1 :: l2 ++ r2 :: l3)%list ->
        FeeDataLoader.row_txn_id r1 = Some id ->
        FeeDataLoader.row_txn_id r2 = Some id ->
        Py.truthy_str id = true ->
        Forall (fun row => FeeDataLoader.row_txn_id row <> Some id) l3 ->
        store !! id = Some (FeeDataLoader.fee_record_of r2)
        /\ exists record, store !! id = Some record /\ Notion.carries record r2)
  /\ (forall (before after : list CsvRow) (row : CsvRow),
        rows = (before ++ row :: after)%list ->
        Py.truthy (FeeDataLoader.row_txn_id row) = false ->
        store = FeeDataLoader.load (before ++ after))
  /\ (forall (id : string) (record : FeeRecord),
        store !! id = Some record ->
        exists row, row ∈ rows
                    /\ FeeDataLoader.row_txn_id row = Some id
                    /\ Notion.carries record row)
  /\ (fun record =>
        (mdr_amount record, mdr_currency record, interchange_amount record,
         vat_amount record, st_amount record))
       <$> (FeeDataLoader.load [Fixture.earlier_x; Sample.anonymous; Fixture.later_x]
              !! "X")
     = Some (2%float, Some "MYR", 0.9%float, 0%float, 0%float).
Proof.
  cbv zeta. split; [apply NoDup_fst_map_to_list|].
  split; [intros id; apply load_lookup|]. split; [|split; [|split]].
  - intros l1 l2 l3 r1 r2 id -> H1 H2 Ht Hl3.
    assert (Hs : FeeDataLoader.load (l1 ++ r1 :: l2 ++ r2 :: l3) !! id
                 = Some (FeeDataLoader.fee_record_of r2)).
    { rewrite load_lookup, Ht.
      rewrite filter_app, filter_cons_True by exact H1.
      rewrite filter_app, filter_cons_True by exact H2.
      assert (Hnil : filter (fun row => FeeDataLoader.row_txn_id row = Some id) l3 = []).
      { clear -Hl3. induction Hl3 as [|r l Hr _ IH]; [reflexivity|].
        now rewrite filter_cons_False by exact Hr. }
      rewrite Hnil.
      change (r1 :: ?l ++ [r2])%list with ((r1 :: l) ++ [r2])%list.
      rewrite app_assoc. now rewrite last_snoc. }
    split; [exact Hs|]. exists (FeeDataLoader.fee_record_of r2).
    split; [exact Hs|apply fee_record_of_carries].
  - intros before after row -> Hrow.
    apply map_eq. intros id. rewrite !load_lookup.
    destruct (Py.truthy_str id) eqn:Ht; [|reflexivity].
    rewrite !filter_app. rewrite filter_cons_False; [reflexivity|].
    intros Hid. rewrite Hid in Hrow. cbn in Hrow. congruence.
  - intros id record. rewrite load_lookup.
    destruct (Py.truthy_str id); [|discriminate].
    destruct (last _) as [row|] eqn:Hl; [|discriminate].
    intros [= <-].
    apply last_Some_elem_of, list_elem_of_filter in Hl as [Hid Hin].
    exists row. split; [exact Hin|]. split; [exact Hid|apply fee_record_of_carries].
  - vm_compute. reflexivity.
Qed.

Lemma fee_store_last_row_wins_witness :
  exists record,
    FeeDataLoader.load [Fixture.earlier_x; Sample.anonymous; Fixture.later_x] !! "X"
    = Some record
    /\ mdr_amount record = 2%float
    /\ mdr_currency record = Some "MYR".
Proof.
  destruct (proj2 (proj1 (proj2 (proj2
              (fee_store_last_row_wins
                 [Fixture.earlier_x; Sample.anonymous; Fixture.later_x])))
              [] [Sample.anonymous] [] Fixture.earlier_x Fixture.later_x "X"
              eq_refl ltac:(vm_compute; reflexivity) ltac:(vm_compute; reflexivity)
              eq_refl ltac:(constructor)))
    as (record & Hs & Hc).
  exists record. split; [exact Hs|].
  destruct Hc as (Hm & Hcur & _). split.
  - rewrite Hm. vm_compute. reflexivity.
  - rewrite Hcur. vm_compute. reflexivity.
Defined.

(** *** Rows against headers *)

Section ZipRow.
Import ExcelReader.

Lemma zip_row_snoc (headers row_data : list string) (value : string) :
  zip_row headers (row_data ++ [value])
  = match headers !! length row_data with
    | Some h => <[h := value]> (zip_row headers row_data)
    | None => zip_row headers row_data
    end.
Proof.
  unfold zip_row. rewrite imap_app, fold_left_app. cbn [imap fold_left].
  now rewrite Nat.add_0_r.
Qed.

Lemma zip_row_keys (headers row_data : list string) (h : string) :
  is_Some (zip_row headers row_data !! h)
  <-> exists i, (i < length row_data)%nat /\ headers !! i = Some h.
Proof.
  induction row_data as [|value row_data IH] using rev_ind.
  - unfold zip_row; cbn. rewrite lookup_empty. split.
    + intros [x [=]].
    + intros (i & Hi & _). inversion Hi.
  - rewrite zip_row_snoc, length_app. cbn [length].
    destruct (headers !! length row_data) as [h'|] eqn:Hh.
    + destruct (decide (h' = h)) as [->|Hne].
      * rewrite lookup_insert_eq. split; [|eauto].
        intros _. exists (length row_data). split; [lia|exact Hh].
      * rewrite lookup_insert_ne by exact Hne. rewrite IH. split.
        -- intros (i & Hi & Hhi). exists i. split; [lia|exact Hhi].
        -- intros (i & Hi & Hhi). exists i. split; [|exact Hhi].
           destruct (decide (i = length row_data)) as [->|]; [congruence|lia].
    + rewrite IH. split.
      * intros (i & Hi & Hhi). exists i. split; [lia|exact Hhi].
      * intros (i & Hi & Hhi). exists i. split; [|exact Hhi].
        destruct (decide (i = length row_data)) as [->|]; [congruence|lia].
Qed.

Lemma zip_row_values (headers row_data : list string) (i : nat) (h : string) :
  NoDup headers -> headers !! i = Some h ->
  zip_row headers row_data !! h = row_data !! i.
Proof.
  intros Hnd Hi.
  induction row_data as [|value row_data IH] using rev_ind.
  - unfold zip_row; cbn. now rewrite lookup_empty.
  - rewrite zip_row_snoc.
    destruct (headers !! length row_data) as [h'|] eqn:Hh.
    + destruct (decide (h' = h)) as [->|Hne].
      * rewrite lookup_insert_eq.
        rewrite (NoDup_lookup _ _ _ _ Hnd Hi Hh).
        now rewrite list_lookup_middle.
      * rewrite lookup_insert_ne by exact Hne. rewrite IH.
        destruct (decide (i < length row_data)%nat) as [Hlt|Hge].
        -- now rewrite lookup_app_l.
        -- assert (i <> length row_data) by congruence.
           rewrite !lookup_ge_None_2; [reflexivity| |lia].
           rewrite length_app. cbn [length]. lia.
    + rewrite IH.
      apply lookup_ge_None_1 in Hh. apply lookup_lt_Some in Hi.
      rewrite lookup_app_l by lia. reflexivity.
Qed.

End ZipRow.

(** C8, as stated: every header would be a key of the transaction. On a sheet
    whose data row has one cell, the transaction read has no key for
    the header Amount. *)
Lemma trailing_header_has_no_key :
  ExcelReader.read None Sample.short_sheet
  = Ok [ExcelReader.zip_row Sample.headers ["T1"]]
  /\ "Amount" ∈ Sample.headers
  /\ ExcelReader.zip_row Sample.headers ["T1"] !! "Amount" = None
  /\ ~ (forall (headers row_data : list string) (h : string),
          h ∈ headers ->
          is_Some (ExcelReader.zip_row headers row_data !! h)).
Proof.
  assert (Hin : "Amount" ∈ Sample.headers).
  { unfold Sample.headers. apply list_elem_of_lookup. now exists 2%nat. }
  split; [vm_compute; reflexivity|]. split; [exact Hin|].
  split; [vm_compute; reflexivity|].
  intros H. specialize (H Sample.headers ["T1"] "Amount" Hin).
  destruct H as [x Hx]. vm_compute in Hx. discriminate Hx.
Qed.

(** C8, amended: the transaction has a key for exactly the headers that have
    a cell at their position in the row: cells beyond the header count are
    dropped and headers beyond the row's cell count are absent keys; when no
    header is repeated, a header maps to the cell at its position. *)
Theorem zip_row_positional (headers row_data : list string) :
  let transaction := ExcelReader.zip_row headers row_data in
  (forall h : string,
      is_Some (transaction !! h)
      <-> exists i, (i < length row_data)%nat /\ headers !! i = Some h)
  /\ (NoDup headers ->
      forall (i : nat) (h : string),
        headers !! i = Some h -> transaction !! h = row_data !! i).
Proof.
  cbv zeta. split.
  - intros h. apply zip_row_keys.
  - intros Hnd i h. now apply zip_row_values.
Qed.

Lemma zip_row_positional_witness :
  ExcelReader.zip_row ["a"; "b"; "c"] ["x"; "y"] !! "b" = Some "y"
  /\ ExcelReader.zip_row ["a"; "b"; "c"] ["x"; "y"] !! "c" = None.
Proof.
  assert (Hnd : NoDup ["a"; "b"; "c"]) by (apply (bool_decide_unpack (NoDup _)); vm_compute; exact I).
  split.
  - exact (proj2 (zip_row_positional ["a"; "b"; "c"] ["x"; "y"]) Hnd 1%nat "b" eq_refl).
  - exact (proj2 (zip_row_positional ["a"; "b"; "c"] ["x"; "y"]) Hnd 2%nat "c" eq_refl).
Defined.

(** *** Percentages *)

Section Percentages.
Import StatisticsAggregator.

Lemma bucket_at_calculate_percentages (self : StatisticsAggregator.t)
    (region card_type : string) :
  bucket_at (stats (calculate_percentages self)) region card_type
  = percentages <$> bucket_at (stats self) region card_type.
Proof.
  unfold bucket_at, calculate_percentages. cbn [stats].
  rewrite lookup_fmap.
  destruct (stats self !! region) as [by_card|]; cbn; [|reflexivity].
  now rewrite lookup_fmap.
Qed.

End Percentages.

(** C7, as stated: a percentage would be 0.0 on a zero volume only. A
    settled transaction of amount -100 gives its bucket the volume -100; the
    finalize pass sets its interchange percentage to 0.0, not to
    abs(1.5 / -100 * 100) = 1.5. *)
Lemma negative_volume_percentage_is_zero :
  match Main.run (FeeDataLoader.load [Sample.fee_t1]) [Sample.reversal] with
  | Ok aggregator =>
      match StatisticsAggregator.bucket_at
              (StatisticsAggregator.stats aggregator) "HK" "VISA" with
      | Some b =>
          total_volume b = (-100)%float
          /\ total_ic b = 1.5%float
          /\ avg_ic_pct b = Some 0%float
          /\ Statement.pct_zero_volume (total_ic b) (total_volume b) = 1.5%float
          /\ avg_ic_pct b
             <> Some (Statement.pct_zero_volume (total_ic b) (total_volume b))
      | None => False
      end
  | Raise _ => False
  end.
Proof.
  vm_compute. repeat split.
  intros H.
  apply (f_equal (fun o => match o with
                           | Some x => PrimFloat.eqb x 0
                           | None => false
                           end)) in H.
  vm_compute in H. discriminate H.
Qed.

(** C7, amended: after the finalize pass each of the four percentages of a
    bucket is abs(total / total_volume * 100) when the volume is greater than
    0, and 0.0 otherwise. *)
Theorem percentages_after_finalize (self : StatisticsAggregator.t)
    (region card_type : string) (b : Bucket) :
  StatisticsAggregator.bucket_at
    (StatisticsAggregator.stats (StatisticsAggregator.calculate_percentages self))
    region card_type = Some b ->
  avg_ic_pct b
  = Some (Statement.pct_positive_volume (total_ic b) (total_volume b))
  /\ avg_first_plus_pct b
     = Some (Statement.pct_positive_volume (total_first_plus b) (total_volume b))
  /\ avg_second_plus_pct b
     = Some (Statement.pct_positive_volume (total_second_plus b) (total_volume b))
  /\ avg_mdr_pct b
     = Some (Statement.pct_positive_volume (total_mdr b) (total_volume b)).
Proof.
  rewrite bucket_at_calculate_percentages.
  destruct (StatisticsAggregator.bucket_at _ region card_type) as [b0|];
    [|discriminate].
  intros [= <-].
  unfold StatisticsAggregator.percentages, Statement.pct_positive_volume.
  cbn [avg_ic_pct avg_first_plus_pct avg_second_plus_pct avg_mdr_pct
       total_ic total_first_plus total_second_plus total_mdr total_volume].
  repeat split; now destruct (Py.fgt (total_volume b0) 0).
Qed.

Lemma percentages_after_finalize_witness :
  avg_ic_pct (StatisticsAggregator.percentages Sample.settled_bucket)
  = Some (Statement.pct_positive_volume
            (total_ic (StatisticsAggregator.percentages Sample.settled_bucket))
            (total_volume (StatisticsAggregator.percentages Sample.settled_bucket))).
Proof.
  apply (percentages_after_finalize Sample.one_bucket "HK" "VISA").
  vm_compute. reflexivity.
Defined.

(** *** Accumulation and processing order *)

Section Accumulation.
Import Py StatisticsAggregator Statement.

Implicit Types (triple : Transaction * ICPP * string) (s : Stats).

Lemma add_to_stats_Ok s (transaction : Transaction) (icpp : ICPP)
    (region : string) s' :
  add_to_stats s transaction icpp region = Ok s' ->
  exists amount,
    amount_of transaction = Ok amount
    /\ s' = <[region :=
               <[card_type_of transaction :=
                   update_bucket
                     (default new_bucket
                        (default ∅ (s !! region) !! card_type_of transaction))
                     (default "N/A" (transaction !! "Gateway UUID"))
                     (default "" (transaction !! "Currency"))
                     amount icpp]>
                 (default ∅ (s !! region))]> s.
Proof.
  unfold add_to_stats, card_type_of.
  destruct (amount_of transaction) as [amount|e]; cbn; [|discriminate].
  intros [= <-]. now exists amount.
Qed.

Lemma bucket_at_default s (region card_type : string) :
  default ∅ (s !! region) !! card_type = bucket_at s region card_type.
Proof.
  unfold bucket_at. destruct (s !! region); cbn; [reflexivity|].
  apply lookup_empty.
Qed.

Lemma in_bucket_true (r c : string) (transaction : Transaction) (icpp : ICPP)
    (region : string) :
  in_bucket r c (transaction, icpp, region) = true
  <-> region = r /\ card_type_of transaction = c.
Proof.
  unfold in_bucket. cbn [fst snd].
  rewrite andb_true_iff, !String.eqb_eq. tauto.
Qed.

Lemma bucket_at_step s (transaction : Transaction) (icpp : ICPP)
    (region : string) s' (r c : string) :
  add_to_stats s transaction icpp region = Ok s' ->
  bucket_at s' r c
  = if in_bucket r c (transaction, icpp, region)
    then bucket_step (bucket_at s r c) (transaction, icpp, region)
    else bucket_at s r c.
Proof.
  intros H. apply add_to_stats_Ok in H as (amount & Ha & ->).
  destruct (in_bucket r c (transaction, icpp, region)) eqn:Hin.
  - apply in_bucket_true in Hin as [-> <-].
    unfold bucket_step. cbn [fst snd]. rewrite Ha.
    unfold bucket_at at 1. rewrite lookup_insert_eq. cbn.
    rewrite lookup_insert_eq. now rewrite bucket_at_default.
  - unfold bucket_at at 1.
    destruct (decide (region = r)) as [->|Hr].
    + rewrite lookup_insert_eq. cbn.
      destruct (decide (card_type_of transaction = c)) as [<-|Hc].
      * assert (in_bucket r (card_type_of transaction) (transaction, icpp, r) = true)
          by now apply in_bucket_true.
        congruence.
      * rewrite lookup_insert_ne by exact Hc. apply bucket_at_default.
    + now rewrite lookup_insert_ne by exact Hr.
Qed.

Lemma region_step s (transaction : Transaction) (icpp : ICPP)
    (region : string) s' (r : string) :
  add_to_stats s transaction icpp region = Ok s' ->
  is_Some (s' !! r) <-> is_Some (s !! r) \/ region = r.
Proof.
  intros H. apply add_to_stats_Ok in H as (amount & _ & ->).
  destruct (decide (region = r)) as [->|Hr].
  - rewrite lookup_insert_eq. split; [now right|eauto].
  - rewrite lookup_insert_ne by exact Hr. tauto.
Qed.

Lemma accumulate_cons triple (l : list (Transaction * ICPP * string)) s s' :
  accumulate (triple :: l) s = Ok s' ->
  exists s1,
    add_to_stats s (fst (fst triple)) (snd (fst triple)) (snd triple) = Ok s1
    /\ accumulate l s1 = Ok s'.
Proof.
  destruct triple as [[transaction icpp] region].
  unfold accumulate. cbn [for_each fst snd].
  destruct (add_to_stats s transaction icpp region) as [s1|e]; [|discriminate].
  intros H. now exists s1.
Qed.

Lemma accumulate_bucket_at (l : list (Transaction * ICPP * string)) (r c : string) :
  forall s s',
    accumulate l s = Ok s' ->
    bucket_at s' r c
    = fold_left bucket_step (filter (fun triple => in_bucket r c triple) l)
                (bucket_at s r c).
Proof.
  induction l as [|triple l IH]; intros s s' H.
  - injection H as <-. reflexivity.
  - apply accumulate_cons in H as (s1 & H1 & H).
    rewrite (IH _ _ H).
    destruct triple as [[transaction icpp] region]. cbn [fst snd] in H1.
    rewrite (bucket_at_step _ _ _ _ _ r c H1).
    destruct (in_bucket r c (transaction, icpp, region)) eqn:Hin.
    + rewrite filter_cons_True by (now rewrite Hin).
      reflexivity.
    + rewrite filter_cons_False by (now rewrite Hin).
      reflexivity.
Qed.

Lemma accumulate_regions (l : list (Transaction * ICPP * string)) (r : string) :
  forall s s',
    accumulate l s = Ok s' ->
    is_Some (s' !! r)
    <-> is_Some (s !! r) \/ exists triple, triple ∈ l /\ snd triple = r.
Proof.
  induction l as [|triple l IH]; intros s s' H.
  - injection H as <-. split; [tauto|].
    intros [H|(triple & Hin & _)]; [exact H|]. now apply elem_of_nil in Hin.
  - apply accumulate_cons in H as (s1 & H1 & H).
    rewrite (IH _ _ H), (region_step _ _ _ _ _ r H1). split.
    + intros [[Hs|Hr]|(x & Hx & Hr)]; [now left| |].
      * right. exists triple. split; [apply list_elem_of_here|exact Hr].
      * right. exists x. split; [now apply list_elem_of_further|exact Hr].
    + intros [Hs|(x & Hx & Hr)]; [now left; left|].
      apply elem_of_cons in Hx as [->|Hx]; [now left; right|].
      right. now exists x.
Qed.

Lemma accumulate_amounts (l : list (Transaction * ICPP * string)) :
  forall s s',
    accumulate l s = Ok s' ->
    Forall (fun triple => exists amount, amount_of (fst (fst triple)) = Ok amount) l.
Proof.
  induction l as [|triple l IH]; intros s s' H; [constructor|].
  apply accumulate_cons in H as (s1 & H1 & H).
  constructor; [|now apply (IH _ _ H)].
  apply add_to_stats_Ok in H1 as (amount & Ha & _). now exists amount.
Qed.

Lemma count_fold (l : list (Transaction * ICPP * string)) :
  forall bucket : option Bucket,
    Forall (fun triple => exists amount, amount_of (fst (fst triple)) = Ok amount) l ->
    count <$> fold_left bucket_step l bucket
    = match l with
      | [] => count <$> bucket
      | _ => Some (count (default new_bucket bucket) + Z.of_nat (length l))
      end.
Proof.
  induction l as [|triple l IH]; intros bucket Hl; [reflexivity|].
  inversion Hl as [|? ? (amount & Ha) Hl']; subst.
  cbn [fold_left]. rewrite (IH _ Hl').
  unfold bucket_step at 1 2. rewrite Ha.
  destruct l as [|triple' l];
    cbn [fmap option_fmap option_map default from_option id count
         update_bucket length].
  - reflexivity.
  - f_equal. rewrite !Nat2Z.inj_succ. lia.
Qed.

Lemma stats_ext s1 s2 :
  (forall r, is_Some (s1 !! r) <-> is_Some (s2 !! r)) ->
  (forall r c, bucket_at s1 r c = bucket_at s2 r c) ->
  s1 = s2.
Proof.
  intros Hr Hb. apply map_eq. intros r.
  specialize (Hr r). pose proof (Hb r) as Hbr. unfold bucket_at in Hbr.
  destruct (s1 !! r) as [m1|], (s2 !! r) as [m2|]; cbn in Hbr.
  - f_equal. apply map_eq. exact Hbr.
  - destruct (proj1 Hr (ltac:(eauto))) as [x [=]].
  - destruct (proj2 Hr (ltac:(eauto))) as [x [=]].
  - reflexivity.
Qed.

End Accumulation.

(** C9, as stated: the sums of a bucket would not depend on the order of the
    triples. Three triples of the bucket (HK, VISA) with the amounts 0.1, 0.2
    and 0.3 give the total volume 0.6000000000000001 in this order and 0.6 in
    the reverse order. *)
Lemma sums_depend_on_order :
  ~ (forall (l1 l2 : list (Transaction * ICPP * string)) (s1 s2 : Stats),
        l1 ≡ₚ l2 ->
        accumulate l1 ∅ = Ok s1 ->
        accumulate l2 ∅ = Ok s2 ->
        forall region card_type : string,
          Statement.sums <$> StatisticsAggregator.bucket_at s1 region card_type
          = Statement.sums <$> StatisticsAggregator.bucket_at s2 region card_type).
Proof.
  intros H.
  destruct (accumulate [Sample.ta; Sample.tb; Sample.tc] ∅) as [s1|e1] eqn:H1;
    [|vm_compute in H1; discriminate H1].
  destruct (accumulate [Sample.tc; Sample.tb; Sample.ta] ∅) as [s2|e2] eqn:H2;
    [|vm_compute in H2; discriminate H2].
  assert (Hp : [Sample.ta; Sample.tb; Sample.tc] ≡ₚ [Sample.tc; Sample.tb; Sample.ta])
    by apply (reverse_Permutation [Sample.tc; Sample.tb; Sample.ta]).
  specialize (H _ _ s1 s2 Hp H1 H2 "HK" "VISA").
  assert (Hs1 : Ok s1 = accumulate [Sample.ta; Sample.tb; Sample.tc] ∅) by now rewrite H1.
  assert (Hs2 : Ok s2 = accumulate [Sample.tc; Sample.tb; Sample.ta] ∅) by now rewrite H2.
  apply (f_equal (fun r => match r with Ok s => s | Raise _ => ∅ end)) in Hs1, Hs2.
  cbn beta iota in Hs1, Hs2. subst s1 s2.
  apply (f_equal (fun o => match o with
                           | Some (_, volume :: _) => PrimFloat.eqb volume 0.6
                           | _ => false
                           end)) in H.
  vm_compute in H. discriminate H.
Qed.

Example volume_in_both_orders :
  (0 + 0.1 + 0.2 + 0.3 = 0.6000000000000001)%float
  /\ (0 + 0.3 + 0.2 + 0.1 = 0.6)%float.
Proof. split; reflexivity. Qed.

(** C9, amended: for triples that are all accepted, the count of every
    bucket, and which buckets exist, are the same for every processing order;
    the statistics as a whole, with every total, are the same for two orders
    that list the triples of each bucket in the same relative order. *)
Theorem accumulation_order (l1 l2 : list (Transaction * ICPP * string))
    (s0 s1 s2 : Stats) :
  l1 ≡ₚ l2 ->
  accumulate l1 s0 = Ok s1 ->
  accumulate l2 s0 = Ok s2 ->
  (forall region card_type : string,
      count <$> StatisticsAggregator.bucket_at s1 region card_type
      = count <$> StatisticsAggregator.bucket_at s2 region card_type)
  /\ ((forall region card_type : string,
         filter (fun triple => Statement.in_bucket region card_type triple) l1
         = filter (fun triple => Statement.in_bucket region card_type triple) l2) ->
      s1 = s2).
Proof.
  intros Hp H1 H2. split.
  - intros r c.
    rewrite (accumulate_bucket_at l1 r c _ _ H1), (accumulate_bucket_at l2 r c _ _ H2).
    assert (Hf : forall l s s',
               accumulate l s = Ok s' ->
               Forall (fun triple =>
                         exists amount,
                           StatisticsAggregator.amount_of (fst (fst triple)) = Ok amount)
                      (filter (fun triple => Statement.in_bucket r c triple) l)).
    { intros l s s' H. apply accumulate_amounts in H.
      rewrite Forall_forall in H |- *. intros x Hx.
      apply list_elem_of_filter in Hx as [_ Hx]. now apply H. }
    rewrite !count_fold by eauto.
    assert (Hlen : length (filter (fun triple => Statement.in_bucket r c triple) l1)
                   = length (filter (fun triple => Statement.in_bucket r c triple) l2))
      by now rewrite Hp.
    destruct (filter _ l1), (filter _ l2); try discriminate Hlen;
      [reflexivity|]. now rewrite Hlen.
  - intros Hsame. apply stats_ext.
    + intros r.
      rewrite (accumulate_regions l1 r _ _ H1), (accumulate_regions l2 r _ _ H2).
      now setoid_rewrite Hp.
    + intros r c.
      rewrite (accumulate_bucket_at l1 r c _ _ H1), (accumulate_bucket_at l2 r c _ _ H2).
      now rewrite Hsame.
Qed.

Lemma accumulation_order_witness :
  accumulate [Sample.ta; Sample.tm; Sample.tb] ∅
  = accumulate [Sample.tm; Sample.ta; Sample.tb] ∅.
Proof.
  destruct (accumulate [Sample.ta; Sample.tm; Sample.tb] ∅) as [s1|e1] eqn:H1;
    [|vm_compute in H1; discriminate H1].
  destruct (accumulate [Sample.tm; Sample.ta; Sample.tb] ∅) as [s2|e2] eqn:H2;
    [|vm_compute in H2; discriminate H2].
  f_equal.
  apply (proj2 (accumulation_order _ _ ∅ s1 s2 (perm_swap _ _ _) H1 H2)).
  intros r c. rewrite !filter_cons.
  destruct (decide (Statement.in_bucket r c Sample.ta)) as [Ha|Ha];
    destruct (decide (Statement.in_bucket r c Sample.tm)) as [Hm|Hm];
    try reflexivity.
  apply Is_true_true, in_bucket_true in Ha as [Ha _].
  apply Is_true_true, in_bucket_true in Hm as [Hm _].
  rewrite <- Ha in Hm. discriminate Hm.
Defined.

(** *** The model on the scenarios of the specification *)

Example scenario_hong_kong :
  Sample.scenario_totals
    (Main.main None (Sample.scenario_sheet "Hong Kong Store" "HKG") [Sample.fee_t1])
    "HK" "VISA"
  = Some (1, [100; 1.5; 0.3; 1.2; 0.1; 3]%float).
Proof. vm_compute. reflexivity. Qed.

Example scenario_malaysia :
  Sample.scenario_totals
    (Main.main None (Sample.scenario_sheet "Malaysia Store" "MYS") [Sample.fee_t1])
    "MY" "VISA"
  = Some (1, [100; 1.5; 0; 1.5; 0.1; 3]%float).
Proof. vm_compute. reflexivity. Qed.

Example float_of_str_values :
  Py.float_of_str "100" = Some 100%float
  /\ Py.float_of_str " -0.5 " = Some (-0.5)%float
  /\ Py.float_of_str "3.00" = Some 3%float
  /\ Py.float_of_str "0.1" = Some 0.1%float
  /\ Py.float_of_str "1.5E-2" = Some 0.015%float
  /\ Py.float_of_str "n/a" = None
  /\ Py.float_of_str "" = None
  /\ Py.float_of_str "inf" = Some infinity
  /\ Py.int_of_str " 12 " = Some 12
  /\ Py.int_of_str "1.0" = None.
Proof. vm_compute. repeat split. Qed.

(* ====================================================================== *)
(** ** Further properties of the reader *)
(* ====================================================================== *)

Section ColumnInjective.
Import Py ColumnCodec.

Lemma alpha_digit (c : ascii) :
  is_ascii_char c = true -> isalpha c = true ->
  1 <= ord (upper_char c) - ord "A" + 1 <= 26.
Proof.
  destruct c as [[] [] [] [] [] [] [] []]; vm_compute; intros Ha H;
    try discriminate Ha; try discriminate H; split; discriminate.
Qed.

Lemma upper_char_ord_inj (c1 c2 : ascii) :
  ord (upper_char c1) = ord (upper_char c2) -> upper_char c1 = upper_char c2.
Proof.
  unfold ord. intros H. apply N2Z.inj in H.
  rewrite <- (ascii_N_embedding (upper_char c1)), H.
  apply ascii_N_embedding.
Qed.

(** The letters of an ASCII reference: ASCII letters. *)
Lemma filter_str_alpha (s : string) :
  is_ascii s = true ->
  Forall (fun c => is_ascii_char c = true /\ isalpha c = true)
         (list_ascii_of_string (filter_str isalpha s)).
Proof.
  induction s as [|c r IH]; cbn [filter_str is_ascii]; [constructor|].
  intros H. apply andb_true_iff in H as [Hc Hr].
  destruct (isalpha c) eqn:Ha; [|now apply IH].
  cbn [list_ascii_of_string]. constructor; [now split|now apply IH].
Qed.

Lemma list_ascii_map_str (f : ascii -> ascii) (s : string) :
  list_ascii_of_string (map_str f s) = f <$> list_ascii_of_string s.
Proof. induction s as [|c r IH]; cbn; [reflexivity|]. now rewrite IH. Qed.

Lemma fold_step_snoc (l : list ascii) (c : ascii) :
  fold_left step (l ++ [c]) 0 = fold_left step l 0 * 26 + (ord (upper_char c) - ord "A" + 1).
Proof. now rewrite fold_left_app. Qed.

Lemma fold_step_bounds (l : list ascii) :
  Forall (fun c => is_ascii_char c = true /\ isalpha c = true) l ->
  0 <= fold_left step l 0 /\ (l <> [] -> 1 <= fold_left step l 0).
Proof.
  induction l as [|c l IH] using rev_ind; intros Hl.
  - cbn. split; [lia|congruence].
  - apply Forall_app in Hl as [Hl Hc]. apply Forall_inv in Hc as [Hc1 Hc2].
    pose proof (alpha_digit c Hc1 Hc2). destruct (IH Hl) as [IH0 _].
    rewrite fold_step_snoc. split; [lia|intros _; lia].
Qed.

Lemma fold_step_inj (l1 : list ascii) :
  forall l2 : list ascii,
    Forall (fun c => is_ascii_char c = true /\ isalpha c = true) l1 ->
    Forall (fun c => is_ascii_char c = true /\ isalpha c = true) l2 ->
    fold_left step l1 0 = fold_left step l2 0 ->
    upper_char <$> l1 = upper_char <$> l2.
Proof.
  induction l1 as [|c1 l1 IH] using rev_ind; intros l2 H1 H2 Heq.
  - destruct l2 as [|c2 l2]; [reflexivity|].
    destruct (fold_step_bounds _ H2) as [_ Hpos].
    specialize (Hpos ltac:(discriminate)).
    change (fold_left step [] 0) with 0 in Heq. lia.
  - destruct l2 as [|c2 l2 _] using rev_ind.
    + destruct (fold_step_bounds _ H1) as [_ Hpos].
      specialize (Hpos ltac:(now destruct l1)).
      change (fold_left step [] 0) with 0 in Heq. lia.
    + apply Forall_app in H1 as [H1 Hc1]. apply Forall_inv in Hc1 as [Ha1 Hc1].
      apply Forall_app in H2 as [H2 Hc2]. apply Forall_inv in Hc2 as [Ha2 Hc2].
      rewrite !fold_step_snoc in Heq.
      pose proof (alpha_digit c1 Ha1 Hc1). pose proof (alpha_digit c2 Ha2 Hc2).
      destruct (fold_step_bounds _ H1) as [Hn1 _].
      destruct (fold_step_bounds _ H2) as [Hn2 _].
      assert (Hd : ord (upper_char c1) = ord (upper_char c2)) by lia.
      assert (Hr : fold_left step l1 0 = fold_left step l2 0) by lia.
      rewrite !fmap_app. cbn [fmap list_fmap].
      now rewrite (IH l2 H1 H2 Hr), (upper_char_ord_inj _ _ Hd).
Qed.

End ColumnInjective.

(** X1: for cell references that are ASCII text, [_col_letter_to_num] of the
    letters of a reference is at least -1, is -1 only when the reference has
    no letter, and gives two references the same column only if their
    letters agree up to case. A reference with a letter outside ASCII is
    another matter: the letter is kept and counts for more than 26. *)
Theorem col_letter_to_num_injective (ref1 ref2 : string) :
  Py.is_ascii ref1 = true ->
  Py.is_ascii ref2 = true ->
  let letters1 := Py.filter_str Py.isalpha ref1 in
  let letters2 := Py.filter_str Py.isalpha ref2 in
  -1 <= ColumnCodec._col_letter_to_num letters1
  /\ (ColumnCodec._col_letter_to_num letters1 = -1 <-> letters1 = "")
  /\ (ColumnCodec._col_letter_to_num letters1 = ColumnCodec._col_letter_to_num letters2 ->
      Py.upper letters1 = Py.upper letters2).
Proof.
  intros Ha1 Ha2. cbv zeta. unfold ColumnCodec._col_letter_to_num.
  pose proof (filter_str_alpha ref1 Ha1) as H1.
  pose proof (filter_str_alpha ref2 Ha2) as H2.
  destruct (fold_step_bounds _ H1) as [Hn Hp].
  split; [lia|]. split.
  - split.
    + intros H. destruct (Py.filter_str Py.isalpha ref1) as [|c r]; [reflexivity|].
      cbn [list_ascii_of_string] in Hp. specialize (Hp ltac:(discriminate)).
      cbn [list_ascii_of_string] in H. lia.
    + intros ->. reflexivity.
  - intros H. assert (H' : fold_left ColumnCodec.step
                              (list_ascii_of_string (Py.filter_str Py.isalpha ref1)) 0
                            = fold_left ColumnCodec.step
                                (list_ascii_of_string (Py.filter_str Py.isalpha ref2)) 0)
      by lia.
    apply (fold_step_inj _ _ H1 H2) in H'.
    unfold Py.upper.
    rewrite <- (string_of_list_ascii_of_string (Py.map_str _ (Py.filter_str _ ref1))).
    rewrite <- (string_of_list_ascii_of_string (Py.map_str _ (Py.filter_str _ ref2))).
    now rewrite !list_ascii_map_str, H'.
Qed.

Lemma col_letter_to_num_injective_witness :
  Py.upper (Py.filter_str Py.isalpha "ab12") = Py.upper (Py.filter_str Py.isalpha "AB7").
Proof.
  apply (col_letter_to_num_injective "ab12" "AB7"); reflexivity.
Defined.

Section CellsAndRows.
Import Py ExcelReader Notion.

Lemma parse_row_unfold (shared_strings : list string) (cells : list Cell) :
  _parse_row shared_strings cells
  = match for_each (row_body shared_strings) cells ∅ with
    | Ok values_dict =>
        Ok ((fun i => default "" (values_dict !! i))
              <$> seqZ 0 (max_col values_dict + 1))
    | Raise e => Raise e
    end.
Proof. reflexivity. Qed.

Lemma row_body_Ok (shared_strings : list string) (d d' : gmap Z string) (cell : Cell) :
  row_body shared_strings d cell = Ok d' ->
  exists k, column_of cell = Some k
            /\ (exists value, _parse_cell_value shared_strings cell = Ok value)
            /\ d' = <[k := cell_text shared_strings cell]> d.
Proof.
  unfold row_body, column_of, cell_text.
  destruct (cell_r cell) as [cell_ref|]; cbn; [|discriminate].
  destruct (_parse_cell_value shared_strings cell) as [value|e]; cbn; [|discriminate].
  intros [= <-]. eauto.
Qed.

Lemma row_dict_lookup (shared_strings : list string) (cells : list Cell) :
  forall (d0 d : gmap Z string) (k : Z),
    for_each (row_body shared_strings) cells d0 = Ok d ->
    d !! k
    = match last (filter (fun cell => column_of cell = Some k) cells) with
      | Some cell => Some (cell_text shared_strings cell)
      | None => d0 !! k
      end.
Proof.
  induction cells as [|cell cells IH]; intros d0 d k H.
  - injection H as <-. reflexivity.
  - cbn [for_each] in H.
    destruct (row_body shared_strings d0 cell) as [d1|e] eqn:Hb; [|discriminate H].
    apply row_body_Ok in Hb as (k' & Hk' & _ & ->).
    rewrite (IH _ _ k H).
    destruct (decide (column_of cell = Some k)) as [Hk|Hk].
    + rewrite filter_cons_True by exact Hk. rewrite last_cons.
      destruct (last _); [reflexivity|].
      assert (k' = k) as -> by congruence. apply lookup_insert_eq.
    + rewrite filter_cons_False by exact Hk.
      destruct (last _); [reflexivity|].
      apply lookup_insert_ne. congruence.
Qed.

Lemma row_dict_cells (shared_strings : list string) (cells : list Cell) :
  forall d0 d : gmap Z string,
    for_each (row_body shared_strings) cells d0 = Ok d ->
    Forall (fun cell => is_Some (cell_r cell)
                        /\ exists value, _parse_cell_value shared_strings cell = Ok value)
           cells.
Proof.
  induction cells as [|cell cells IH]; intros d0 d H; [constructor|].
  cbn [for_each] in H.
  destruct (row_body shared_strings d0 cell) as [d1|e] eqn:Hb; [|discriminate H].
  constructor; [|now apply (IH _ _ H)].
  apply row_body_Ok in Hb as (k & Hk & Hv & _). split; [|exact Hv].
  unfold column_of in Hk. destruct (cell_r cell); [eauto|discriminate Hk].
Qed.

Lemma fold_max_ge (l : list Z) (x k : Z) :
  k ∈ x :: l -> k <= fold_right Z.max x l.
Proof.
  induction l as [|y l IH]; cbn [fold_right].
  - intros H. apply list_elem_of_singleton in H as ->. lia.
  - rewrite !elem_of_cons. intros [->|[->|H]].
    + specialize (IH ltac:(apply list_elem_of_here)). lia.
    + lia.
    + specialize (IH ltac:(now apply list_elem_of_further)). lia.
Qed.

Lemma fold_max_in (l : list Z) (x : Z) : fold_right Z.max x l ∈ x :: l.
Proof.
  induction l as [|y l IH]; cbn [fold_right]; [apply list_elem_of_here|].
  destruct (Z.max_spec y (fold_right Z.max x l)) as [[_ ->]|[_ ->]].
  - rewrite !elem_of_cons in *. tauto.
  - rewrite !elem_of_cons. tauto.
Qed.

Lemma max_col_ge (d : gmap Z string) (k : Z) :
  is_Some (d !! k) -> k <= max_col d.
Proof.
  intros [v Hv]. unfold max_col.
  assert (Hk : k ∈ (map_to_list d).*1).
  { apply list_elem_of_fmap. exists (k, v). split; [reflexivity|].
    now apply elem_of_map_to_list. }
  destruct ((map_to_list d).*1) as [|x l]; [now apply elem_of_nil in Hk|].
  now apply fold_max_ge.
Qed.

Lemma max_col_key (d : gmap Z string) :
  max_col d <> 0 -> is_Some (d !! max_col d).
Proof.
  unfold max_col. intros Hne.
  destruct ((map_to_list d).*1) as [|x l] eqn:Hl; [congruence|].
  pose proof (fold_max_in l x) as Hin. rewrite <- Hl in Hin.
  apply list_elem_of_fmap in Hin as ([k v] & Hk & Hin). cbn in Hk.
  apply elem_of_map_to_list in Hin. rewrite Hk. eauto.
Qed.

Lemma max_col_empty : max_col ∅ = 0.
Proof. unfold max_col. now rewrite map_to_list_empty. Qed.

End CellsAndRows.



(** X3: when [_parse_row] returns, every cell had a reference; the list has
    one entry for each column from 0 to the largest column of a cell, the
    entry of a column being the text of the last cell of that column, or the
    empty string when the row has no such cell; a row without cells gives the
    list of one empty string. *)
Theorem parse_row_dense (shared_strings : list string)
    (cells : list ExcelReader.Cell) (row_data : list string) :
  ExcelReader._parse_row shared_strings cells = Ok row_data ->
  Forall (fun cell => is_Some (ExcelReader.cell_r cell)) cells
  /\ (cells = [] -> row_data = [""])
  /\ (forall (cell : ExcelReader.Cell) (k : Z),
        cell ∈ cells -> Notion.column_of cell = Some k -> 0 <= k ->
        (Z.to_nat k < length row_data)%nat)
  /\ (forall i : nat,
        (i < length row_data)%nat ->
        row_data !! i
        = Some (default ""
                  (Notion.cell_text shared_strings
                     <$> last (filter (fun cell =>
                                         Notion.column_of cell = Some (Z.of_nat i))
                                      cells))))
  /\ (forall n : nat,
        length row_data = S (S n) ->
        exists cell, cell ∈ cells
                     /\ Notion.column_of cell = Some (Z.of_nat (S n))).
Proof.
  rewrite parse_row_unfold.
  destruct (for_each _ cells ∅) as [d|e] eqn:Hd; [|discriminate].
  intros [= <-].
  assert (Hlen : length ((fun i => default "" (d !! i))
                           <$> seqZ 0 (ExcelReader.max_col d + 1))
                 = Z.to_nat (ExcelReader.max_col d + 1))
    by now rewrite length_fmap, length_seqZ.
  assert (Hkey : forall k, is_Some (d !! k) ->
                           exists cell, cell ∈ cells /\ Notion.column_of cell = Some k).
  { intros k [v Hv]. rewrite (row_dict_lookup _ _ _ _ k Hd) in Hv.
    destruct (last _) as [cell|] eqn:Hl; [|now rewrite lookup_empty in Hv].
    apply last_Some_elem_of, list_elem_of_filter in Hl. now exists cell. }
  split; [|split; [|split; [|split]]].
  - apply row_dict_cells in Hd. eapply Forall_impl; [exact Hd|]. now intros cell [H _].
  - intros ->. injection Hd as <-. rewrite max_col_empty. reflexivity.
  - intros cell k Hin Hk Hk0. rewrite Hlen.
    assert (k <= ExcelReader.max_col d); [|lia].
    apply max_col_ge. rewrite (row_dict_lookup _ _ _ _ k Hd).
    destruct (last _) as [c|] eqn:Hl; [eauto|].
    apply last_None in Hl.
    assert (Hc : cell ∈ filter (fun cell => Notion.column_of cell = Some k) cells)
      by now apply list_elem_of_filter.
    rewrite Hl in Hc. now apply elem_of_nil in Hc.
  - intros i Hi. rewrite Hlen in Hi.
    rewrite list_lookup_fmap, lookup_seqZ_lt by lia. cbn.
    rewrite (row_dict_lookup _ _ _ _ _ Hd), lookup_empty.
    now destruct (last _).
  - intros n Hn. rewrite Hlen in Hn. apply Hkey.
    assert (Hm : ExcelReader.max_col d = Z.of_nat (S n)) by lia.
    rewrite <- Hm. apply max_col_key. lia.
Qed.

Lemma parse_row_dense_witness :
  ExcelReader._parse_row [] Fixture.gappy_row = Ok ["T1"; ""; "new"]
  /\ ["T1"; ""; "new"] !! 2%nat
     = Some (default ""
               (Notion.cell_text []
                  <$> last (filter (fun cell => Notion.column_of cell = Some 2)
                                   Fixture.gappy_row))).
Proof.
  assert (H : ExcelReader._parse_row [] Fixture.gappy_row = Ok ["T1"; ""; "new"])
    by (vm_compute; reflexivity).
  split; [exact H|].
  apply (proj1 (proj2 (proj2 (proj2 (parse_row_dense _ _ _ H)))) 2%nat).
  cbn. lia.
Defined.

Section Worksheet.
Import Py ExcelReader Notion.

Lemma txn_id_of_identified (transaction : Transaction) :
  has_identifier transaction = true ->
  truthy (Main.txn_id_of transaction) = true.
Proof.
  unfold has_identifier, Main.txn_id_of, or_.
  destruct (truthy (transaction !! "Transaction ID")) eqn:Ht; [now rewrite Ht|].
  rewrite orb_false_r. intros Hg. now rewrite Hg.
Qed.

Lemma worksheet_body_kept (shared_strings headers : list string)
    (l : list (list Cell)) :
  forall data data' : list Transaction,
    for_each (worksheet_body shared_strings headers) l data = Ok data' ->
    exists kept,
      data' = (data ++ kept)%list
      /\ (length kept <= length l)%nat
      /\ Forall (fun transaction =>
                   has_identifier transaction = true
                   /\ exists row row_data,
                        row ∈ l
                        /\ _parse_row shared_strings row = Ok row_data
                        /\ transaction = zip_row headers row_data)
                kept.
Proof.
  induction l as [|row l IH]; intros data data' H.
  - injection H as <-. exists []. rewrite app_nil_r. repeat split; [cbn; lia|constructor].
  - cbn [for_each] in H.
    destruct (worksheet_body shared_strings headers data row) as [data1|e] eqn:Hb;
      [|discriminate H].
    apply IH in H as (kept & -> & Hlen & Hall).
    assert (Hall' : Forall (fun transaction =>
                   has_identifier transaction = true
                   /\ exists row' row_data,
                        row' ∈ row :: l
                        /\ _parse_row shared_strings row' = Ok row_data
                        /\ transaction = zip_row headers row_data) kept).
    { eapply Forall_impl; [exact Hall|]. intros t (Ht & r & rd & Hr & Hp & ->).
      split; [exact Ht|]. exists r, rd. split; [now apply list_elem_of_further|]. eauto. }
    unfold worksheet_body in Hb.
    destruct (_parse_row shared_strings row) as [row_data|e] eqn:Hp; cbn in Hb;
      [|discriminate Hb].
    destruct (truthy (zip_row headers row_data !! "Gateway UUID")
              || truthy (zip_row headers row_data !! "Transaction ID")) eqn:Hid;
      injection Hb as <-.
    + exists (zip_row headers row_data :: kept). split; [now rewrite <- app_assoc|].
      split; [cbn; lia|]. constructor; [|exact Hall'].
      split; [exact Hid|]. exists row, row_data.
      split; [apply list_elem_of_here|]. eauto.
    + exists kept. split; [reflexivity|]. split; [cbn; lia|exact Hall'].
Qed.

End Worksheet.

(** X4: every transaction that [read] returns is a data row (the third row
    or a later one) zipped against the headers parsed from the second row,
    has a non-empty Gateway UUID or Transaction ID, and so a non-empty
    identifier for the fee lookup of [main]; there are at most as many
    transactions as data rows. *)
Theorem read_keeps_identified_rows (strings_part : option (list (option string)))
    (rows : list (list ExcelReader.Cell)) (transactions : list Transaction) :
  ExcelReader.read strings_part rows = Ok transactions ->
  (length transactions <= length rows - 2)%nat
  /\ Forall (fun transaction =>
               Notion.has_identifier transaction = true
               /\ Py.truthy (Main.txn_id_of transaction) = true)
            transactions
  /\ Forall (fun transaction =>
               exists (header_row : list ExcelReader.Cell) (headers : list string)
                      (row : list ExcelReader.Cell) (row_data : list string),
                 rows !! 1%nat = Some header_row
                 /\ ExcelReader._parse_row
                      (ExcelReader._load_shared_strings strings_part) header_row
                    = Ok headers
                 /\ row ∈ drop 2 rows
                 /\ ExcelReader._parse_row
                      (ExcelReader._load_shared_strings strings_part) row
                    = Ok row_data
                 /\ transaction = ExcelReader.zip_row headers row_data)
            transactions.
Proof.
  unfold ExcelReader.read, ExcelReader._load_worksheet.
  destruct (length rows <? 3)%nat eqn:Hlen.
  - intros [= <-]. split; [cbn; lia|]. split; constructor.
  - destruct (rows !! 1%nat) as [header_row|] eqn:Hh; cbn; [|discriminate].
    destruct (ExcelReader._parse_row _ header_row) as [headers|e] eqn:Hp; cbn;
      [|discriminate].
    intros H.
    apply (worksheet_body_kept _ headers (drop 2 rows) [] transactions) in H
      as (kept & -> & Hk & Hall).
    cbn [app]. rewrite length_drop in Hk.
    split; [exact Hk|]. split.
    + eapply Forall_impl; [exact Hall|]. intros t [Ht _].
      split; [exact Ht|now apply txn_id_of_identified].
    + eapply Forall_impl; [exact Hall|].
      intros t (_ & row & row_data & Hrow & Hrd & ->).
      exists header_row, headers, row, row_data. repeat split; assumption.
Qed.

Lemma read_keeps_identified_rows_witness :
  Forall (fun transaction =>
            exists (header_row : list ExcelReader.Cell) (headers : list string)
                   (row : list ExcelReader.Cell) (row_data : list string),
              Sample.short_sheet !! 1%nat = Some header_row
              /\ ExcelReader._parse_row (ExcelReader._load_shared_strings None) header_row
                 = Ok headers
              /\ row ∈ drop 2 Sample.short_sheet
              /\ ExcelReader._parse_row (ExcelReader._load_shared_strings None) row
                 = Ok row_data
              /\ transaction = ExcelReader.zip_row headers row_data)
         [ExcelReader.zip_row Sample.headers ["T1"]].
Proof.
  apply (read_keeps_identified_rows None Sample.short_sheet).
  vm_compute. reflexivity.
Defined.

(* ====================================================================== *)
(** ** Further properties of the fee store and of the join *)
(* ====================================================================== *)

Section FeeStoreMore.
Import Py FeeDataLoader.

Lemma truthy_str_false (s : string) : truthy_str s = false <-> s = "".
Proof. destruct s; cbn; split; congruence. Qed.

Lemma load_row_size (fee_data : FeeData) (row : CsvRow) :
  (size (load_row fee_data row) <= S (size fee_data))%nat.
Proof.
  unfold load_row. destruct (negb (truthy (row_txn_id row))); [lia|].
  destruct (row_txn_id row) as [key|]; [|lia].
  rewrite map_size_insert. destruct (fee_data !! key); cbn; lia.
Qed.

Lemma load_from_size (rows : list CsvRow) :
  forall fee_data : FeeData,
    (size (load_from fee_data rows) <= size fee_data + length rows)%nat.
Proof.
  induction rows as [|row rows IH]; intros fee_data; cbn [length]; [cbn; lia|].
  unfold load_from in *. cbn [fold_left].
  specialize (IH (load_row fee_data row)).
  pose proof (load_row_size fee_data row). lia.
Qed.

End FeeStoreMore.

(** X5: the identifier under which [load] stores a row is the first
    non-empty value among NP Transaction ID, Transaction ID, Gateway Reference
    and Gateway UUID, in this order; when none is non-empty the chain ends on
    [None] or the empty string. *)
Theorem row_txn_id_order (row : CsvRow) :
  match Statement.first_nonempty
          (FeeDataLoader.get row <$> Notion.row_id_order) with
  | Some id => FeeDataLoader.row_txn_id row = Some id
  | None => Py.truthy (FeeDataLoader.row_txn_id row) = false
  end.
Proof.
  unfold FeeDataLoader.row_txn_id, Notion.row_id_order, Py.or_.
  cbn [fmap list_fmap Statement.first_nonempty].
  destruct (FeeDataLoader.get row "NP Transaction ID") as [[|]|];
    destruct (FeeDataLoader.get row "Transaction ID") as [[|]|];
    destruct (FeeDataLoader.get row "Gateway Reference") as [[|]|];
    destruct (FeeDataLoader.get row "Gateway UUID") as [[|]|];
    reflexivity.
Qed.

(** X6: the store that [load] returns has no record under the empty string;
    every record in it was built from a row of the file that resolves to its
    key; every row that resolves to a non-empty identifier has a record under
    it; and the store has at most as many records as the file has rows. *)
Theorem fee_store_provenance (rows : list CsvRow) :
  let store := FeeDataLoader.load rows in
  store !! "" = None
  /\ (forall (id : string) (record : FeeRecord),
        store !! id = Some record ->
        id <> ""
        /\ exists row, row ∈ rows
                       /\ FeeDataLoader.row_txn_id row = Some id
                       /\ record = FeeDataLoader.fee_record_of row)
  /\ (forall (row : CsvRow) (id : string),
        row ∈ rows -> FeeDataLoader.row_txn_id row = Some id -> id <> "" ->
        is_Some (store !! id))
  /\ (size store <= length rows)%nat.
Proof.
  cbv zeta. split; [now rewrite load_lookup|]. split; [|split].
  - intros id record. rewrite load_lookup.
    destruct (Py.truthy_str id) eqn:Ht; [|discriminate].
    intros H. split; [intros ->; discriminate Ht|].
    destruct (last _) as [row|] eqn:Hl; [|discriminate H].
    injection H as <-.
    apply last_Some_elem_of, list_elem_of_filter in Hl as [Hid Hin].
    now exists row.
  - intros row id Hin Hid Hne. rewrite load_lookup.
    destruct (Py.truthy_str id) eqn:Ht; [|now apply truthy_str_false in Ht].
    destruct (last _) as [r|] eqn:Hl; [eauto|].
    apply last_None in Hl.
    assert (Hf : row ∈ filter (fun row => FeeDataLoader.row_txn_id row = Some id) rows)
      by now apply list_elem_of_filter.
    rewrite Hl in Hf. now apply elem_of_nil in Hf.
  - pose proof (load_from_size rows ∅) as H. now rewrite map_size_empty in H.
Qed.

Lemma fee_store_provenance_witness :
  is_Some (FeeDataLoader.load [Sample.first_x; Sample.anonymous; Sample.second_x] !! "X").
Proof.
  apply (proj1 (proj2 (proj2 (fee_store_provenance _))) Sample.first_x "X").
  - apply list_elem_of_here.
  - vm_compute. reflexivity.
  - discriminate.
Defined.

(** X7: for a transaction that passes the validity filter, the loop of
    [main] skips it with the reason "Missing fee data" when its identifier has
    no record in the fee data, skips it with the reason "Zero MDR" when the
    record's MDR amount equals 0.0, and otherwise adds it to the statistics
    with the breakdown computed for its region. *)
Theorem lookup_outcomes (fee_data : FeeData)
    (aggregator : StatisticsAggregator.t) (transaction : Transaction) :
  fst (is_valid_transaction transaction) = true ->
  (Main.fee_lookup fee_data (Main.txn_id_of transaction) = None ->
   Main.process fee_data aggregator transaction
   = Ok (StatisticsAggregator.skip_transaction aggregator "Missing fee data"))
  /\ (forall fees : FeeRecord,
        Main.fee_lookup fee_data (Main.txn_id_of transaction) = Some fees ->
        Py.feq (mdr_amount fees) 0%float = true ->
        Main.process fee_data aggregator transaction
        = Ok (StatisticsAggregator.skip_transaction aggregator "Zero MDR"))
  /\ (forall fees : FeeRecord,
        Main.fee_lookup fee_data (Main.txn_id_of transaction) = Some fees ->
        Py.feq (mdr_amount fees) 0%float = false ->
        let region :=
          identify_region (default "" (transaction !! "Merchant"))
                          (default "" (transaction !! "Card Country")) in
        Main.process fee_data aggregator transaction
        = StatisticsAggregator.add_transaction aggregator transaction
            (calculate_icpp transaction fees region) region).
Proof.
  intros Hv. unfold Main.process.
  destruct (is_valid_transaction transaction) as [is_valid reason].
  cbn in Hv. subst is_valid. cbn [negb].
  split; [|split].
  - now intros ->.
  - intros fees -> Hz. now rewrite Hz.
  - intros fees -> Hz. now rewrite Hz.
Qed.

Lemma lookup_outcomes_witness :
  Main.process ∅ StatisticsAggregator.init Sample.reversal
  = Ok (StatisticsAggregator.skip_transaction StatisticsAggregator.init "Missing fee data").
Proof.
  apply (proj1 (lookup_outcomes ∅ StatisticsAggregator.init Sample.reversal
                  ltac:(vm_compute; reflexivity))).
  vm_compute. reflexivity.
Defined.



(* ====================================================================== *)
(** ** Further properties of the validity filter and of the regions *)
(* ====================================================================== *)

Section Verdict.
Import Py.


End Verdict.



(** X10: [identify_region] returns one of HK, MY, TH, UNKNOWN; a merchant
    name that contains Hong Kong gives HK whatever else it contains, one that
    contains Malaysia but not Hong Kong gives MY, one that contains only
    Thailand gives TH, in each case whatever the card country; without any of
    the three names the region depends on the card country alone, and an
    empty card country gives UNKNOWN. *)
Theorem identify_region_table (merchant card_country : string) :
  identify_region merchant card_country ∈ ReportGenerator.region_order
  /\ (Py.contains "Hong Kong" merchant = true ->
      identify_region merchant card_country = "HK")
  /\ (Py.contains "Hong Kong" merchant = false ->
      Py.contains "Malaysia" merchant = true ->
      identify_region merchant card_country = "MY")
  /\ (Py.contains "Hong Kong" merchant = false ->
      Py.contains "Malaysia" merchant = false ->
      Py.contains "Thailand" merchant = true ->
      identify_region merchant card_country = "TH")
  /\ (Py.contains "Hong Kong" merchant = false ->
      Py.contains "Malaysia" merchant = false ->
      Py.contains "Thailand" merchant = false ->
      identify_region merchant card_country = identify_region "" card_country
      /\ (card_country = "" -> identify_region merchant card_country = "UNKNOWN")).
Proof.
  unfold identify_region, REGION_MAPPING, ReportGenerator.region_order.
  cbn [List.find fst].
  destruct (Py.contains "Hong Kong" merchant) eqn:Hh.
  { split; [apply list_elem_of_here|]. repeat split; discriminate. }
  destruct (Py.contains "Malaysia" merchant) eqn:Hm.
  { split; [apply list_elem_of_further, list_elem_of_here|].
    repeat split; discriminate. }
  destruct (Py.contains "Thailand" merchant) eqn:Ht.
  { split; [do 2 apply list_elem_of_further; apply list_elem_of_here|].
    repeat split; discriminate. }
  split.
  - destruct (Py.truthy_str card_country);
      [|do 3 apply list_elem_of_further; apply list_elem_of_here].
    destruct (Py.in_list card_country ["HKG"; "HK"]); [apply list_elem_of_here|].
    destruct (Py.in_list card_country ["MYS"; "MY"]);
      [apply list_elem_of_further, list_elem_of_here|].
    destruct (Py.in_list card_country ["THA"; "TH"]);
      [do 2 apply list_elem_of_further; apply list_elem_of_here|].
    do 3 apply list_elem_of_further; apply list_elem_of_here.
  - split; [discriminate|]. split; [discriminate|]. split; [discriminate|].
    intros _ _ _. split; [reflexivity|]. now intros ->.
Qed.

Lemma identify_region_table_witness :
  identify_region "Thailand Mall, Hong Kong" "MYS" = "HK"
  /\ identify_region "Kuala Lumpur Malaysia" "HKG" = "MY".
Proof.
  split.
  - apply (proj1 (proj2 (identify_region_table _ _))). vm_compute. reflexivity.
  - apply (proj1 (proj2 (proj2 (identify_region_table _ _)))); vm_compute; reflexivity.
Defined.

(* ====================================================================== *)
(** ** Further properties of the aggregator and of the loop of main *)
(* ====================================================================== *)

Section Loops.

Lemma for_each_invariant {A S : Type} (Inv : S -> Prop)
    (body : S -> A -> result S) (l : list A) :
  (forall s a s', Inv s -> body s a = Ok s' -> Inv s') ->
  forall s s', Inv s -> for_each body l s = Ok s' -> Inv s'.
Proof.
  intros Hstep. induction l as [|a l IH]; intros s s' Hs H.
  - now injection H as <-.
  - cbn [for_each] in H. destruct (body s a) as [s1|e] eqn:Hb; [|discriminate H].
    exact (IH _ _ (Hstep _ _ _ Hs Hb) H).
Qed.

Lemma for_each_total {A S : Type} (body : S -> A -> result S) (l : list A) :
  (forall s a, exists s', body s a = Ok s') ->
  forall s, exists s', for_each body l s = Ok s'.
Proof.
  intros Hstep. induction l as [|a l IH]; intros s; [now exists s|].
  cbn [for_each]. destruct (Hstep s a) as [s1 ->]. apply IH.
Qed.

(** A measure that every turn of the loop increases by one. *)
Lemma for_each_count {A S : Type} (measure : S -> Z)
    (body : S -> A -> result S) (l : list A) :
  (forall s a s', body s a = Ok s' -> measure s' = measure s + 1) ->
  forall s s', for_each body l s = Ok s' ->
               measure s' = measure s + Z.of_nat (length l).
Proof.
  intros Hstep. induction l as [|a l IH]; intros s s' H.
  - injection H as <-. cbn. lia.
  - cbn [for_each] in H. destruct (body s a) as [s1|e] eqn:Hb; [|discriminate H].
    rewrite (IH _ _ H), (Hstep _ _ _ Hb). cbn [length]. lia.
Qed.

End Loops.

Section DictSum.
Import ReportGenerator.
Context {A : Type} (f : A -> Z).

Lemma dict_sum_empty : dict_sum f ∅ = 0.
Proof. apply map_fold_empty. Qed.

Lemma dict_sum_insert_None (d : gmap string A) (k : string) (v : A) :
  d !! k = None -> dict_sum f (<[k := v]> d) = f v + dict_sum f d.
Proof.
  intros H. unfold dict_sum.
  rewrite (map_fold_insert_L (fun _ (a : A) acc => f a + acc) 0 k v d);
    [reflexivity| |exact H].
  intros. lia.
Qed.

Lemma dict_sum_insert (d : gmap string A) (k : string) (v : A) :
  dict_sum f (<[k := v]> d) = f v - default 0 (f <$> d !! k) + dict_sum f d.
Proof.
  destruct (d !! k) as [v0|] eqn:Hk; cbn.
  - rewrite <- insert_delete_eq.
    rewrite dict_sum_insert_None by apply lookup_delete_eq.
    assert (H : dict_sum f d = f v0 + dict_sum f (delete k d)).
    { unfold dict_sum.
      rewrite (map_fold_delete_L (fun _ (a : A) acc => f a + acc) 0 k v0 d);
        [reflexivity| |exact Hk].
      intros. lia. }
    lia.
  - rewrite dict_sum_insert_None by exact Hk. lia.
Qed.

End DictSum.

Section Process.
Import Py StatisticsAggregator ReportGenerator Notion.

Lemma valid_amount_parses (transaction : Transaction) :
  fst (is_valid_transaction transaction) = true ->
  exists amount, amount_of transaction = Ok amount.
Proof.
  unfold is_valid_transaction, amount_of.
  destruct (_ || _); [discriminate|].
  destruct (transaction !! "Amount") as [text|]; cbn [default from_option id];
    [|eauto].
  destruct (float_of_str text) as [amount|]; [|discriminate].
  intros _. now exists amount.
Qed.

Lemma add_transaction_Ok (self : StatisticsAggregator.t)
    (transaction : Transaction) (icpp : ICPP) (region : string) :
  (exists amount, amount_of transaction = Ok amount) ->
  exists stats',
    add_to_stats (stats self) transaction icpp region = Ok stats'
    /\ add_transaction self transaction icpp region
       = Ok {| stats := stats';
               skipped_count := skipped_count self;
               skipped_reasons := skipped_reasons self |}.
Proof.
  intros [amount Ha]. unfold add_transaction, add_to_stats. rewrite Ha. cbn.
  eexists. split; reflexivity.
Qed.

Lemma add_transaction_inv (self self' : StatisticsAggregator.t)
    (transaction : Transaction) (icpp : ICPP) (region : string) :
  add_transaction self transaction icpp region = Ok self' ->
  add_to_stats (stats self) transaction icpp region = Ok (stats self')
  /\ skipped_count self' = skipped_count self
  /\ skipped_reasons self' = skipped_reasons self.
Proof.
  unfold add_transaction.
  destruct (add_to_stats _ _ _ _) as [stats'|e]; cbn; [|discriminate].
  intros [= <-]. repeat split.
Qed.

(** The two ways a turn of the loop of [main] can end. *)
Lemma process_cases (fee_data : FeeData) (aggregator aggregator' : StatisticsAggregator.t)
    (transaction : Transaction) :
  Main.process fee_data aggregator transaction = Ok aggregator' ->
  (exists reason, aggregator' = skip_transaction aggregator reason)
  \/ (exists fees,
        let region :=
          identify_region (default "" (transaction !! "Merchant"))
                          (default "" (transaction !! "Card Country")) in
        add_transaction aggregator transaction
          (calculate_icpp transaction fees region) region = Ok aggregator').
Proof.
  unfold Main.process.
  destruct (is_valid_transaction transaction) as [[|] reason]; cbn [negb].
  - destruct (Main.fee_lookup _ _) as [fees|].
    + destruct (feq (mdr_amount fees) 0).
      * intros [= <-]. left. eauto.
      * intros H. right. now exists fees.
    + intros [= <-]. left. eauto.
  - intros [= <-]. left. eauto.
Qed.

Lemma process_total (fee_data : FeeData) (aggregator : StatisticsAggregator.t)
    (transaction : Transaction) :
  exists aggregator', Main.process fee_data aggregator transaction = Ok aggregator'.
Proof.
  unfold Main.process.
  destruct (is_valid_transaction transaction) as [[|] reason] eqn:Hv; cbn [negb];
    [|eauto].
  destruct (Main.fee_lookup _ _) as [fees|]; [|eauto].
  destruct (feq (mdr_amount fees) 0); [eauto|].
  assert (Ha : exists amount, amount_of transaction = Ok amount)
    by (apply valid_amount_parses; now rewrite Hv).
  destruct (add_transaction_Ok aggregator transaction
              (calculate_icpp transaction fees
                 (identify_region (default "" (transaction !! "Merchant"))
                                  (default "" (transaction !! "Card Country"))))
              (identify_region (default "" (transaction !! "Merchant"))
                               (default "" (transaction !! "Card Country"))) Ha)
    as (stats' & _ & ->).
  eauto.
Qed.

Lemma total_transactions_step (s s' : Stats) (transaction : Transaction)
    (icpp : ICPP) (region : string) :
  add_to_stats s transaction icpp region = Ok s' ->
  total_transactions s' = total_transactions s + 1.
Proof.
  intros H. apply add_to_stats_Ok in H as (amount & _ & ->).
  unfold total_transactions. rewrite !dict_sum_insert.
  cbn [count update_bucket].
  destruct (s !! region) as [by_card|]; cbn [default from_option id fmap option_fmap option_map].
  - destruct (by_card !! _); cbn; lia.
  - rewrite lookup_empty, dict_sum_empty. cbn. lia.
Qed.

Lemma seen_step (fee_data : FeeData) (aggregator aggregator' : StatisticsAggregator.t)
    (transaction : Transaction) :
  Main.process fee_data aggregator transaction = Ok aggregator' ->
  seen aggregator' = seen aggregator + 1.
Proof.
  intros H. apply process_cases in H as [[reason ->]|[fees H]]; unfold seen.
  - cbn [skip_transaction skipped_count stats]. lia.
  - cbv zeta in H. apply add_transaction_inv in H as (H & -> & _).
    rewrite (total_transactions_step _ _ _ _ _ H). lia.
Qed.

Lemma skipped_sum_step (fee_data : FeeData)
    (aggregator aggregator' : StatisticsAggregator.t) (transaction : Transaction) :
  skipped_count aggregator = dict_sum id (skipped_reasons aggregator) ->
  Main.process fee_data aggregator transaction = Ok aggregator' ->
  skipped_count aggregator' = dict_sum id (skipped_reasons aggregator').
Proof.
  intros Hinv H. apply process_cases in H as [[reason ->]|[fees H]].
  - cbn [skip_transaction skipped_count skipped_reasons].
    rewrite dict_sum_insert, Hinv. unfold id at 1.
    destruct (skipped_reasons aggregator !! reason); cbn; unfold id; lia.
  - cbv zeta in H. apply add_transaction_inv in H as (_ & -> & ->). exact Hinv.
Qed.

End Process.

(** X11: the loop of [main] and the finalize pass never raise: a turn of
    the loop returns an aggregator for every fee store, aggregator and
    transaction (the amount that [add_transaction] converts is one the
    validity filter has converted before), and so does [run] for every fee
    store and every list of transactions. *)
Theorem run_never_raises (fee_data : FeeData) (transactions : list Transaction) :
  (forall (aggregator : StatisticsAggregator.t) (transaction : Transaction),
      exists aggregator',
        Main.process fee_data aggregator transaction = Ok aggregator')
  /\ exists aggregator, Main.run fee_data transactions = Ok aggregator.
Proof.
  split; [apply process_total|].
  unfold Main.run.
  destruct (for_each_total (Main.process fee_data) transactions
              (process_total fee_data) StatisticsAggregator.init) as [aggregator ->].
  cbn. eauto.
Qed.

(** X12: after the loop of [main], the skipped count plus the total of the
    bucket counts that the reports print is the number of transactions, and
    the skipped count is the sum of the tallies by reason. *)
Theorem run_accounts_for_every_transaction (fee_data : FeeData)
    (transactions : list Transaction) (aggregator : StatisticsAggregator.t) :
  Main.run fee_data transactions = Ok aggregator ->
  StatisticsAggregator.skipped_count aggregator
  + ReportGenerator.total_transactions (StatisticsAggregator.stats aggregator)
  = Z.of_nat (length transactions)
  /\ StatisticsAggregator.skipped_count aggregator
     = ReportGenerator.dict_sum id (StatisticsAggregator.skipped_reasons aggregator).
Proof.
  unfold Main.run.
  destruct (for_each _ transactions _) as [a|e] eqn:Hl; cbn; [|discriminate].
  intros [= <-].
  assert (Htotal : ReportGenerator.total_transactions
                     (StatisticsAggregator.stats
                        (StatisticsAggregator.calculate_percentages a))
                   = ReportGenerator.total_transactions (StatisticsAggregator.stats a)).
  { unfold ReportGenerator.total_transactions, StatisticsAggregator.calculate_percentages.
    cbn [StatisticsAggregator.stats].
    generalize (StatisticsAggregator.stats a). intros s.
    induction s as [|r m s Hr IH] using map_ind.
    - now rewrite fmap_empty.
    - rewrite fmap_insert, !dict_sum_insert_None, IH
        by (rewrite ?lookup_fmap, ?Hr; reflexivity).
      f_equal. clear.
      induction m as [|c b m Hc IH] using map_ind.
      + now rewrite fmap_empty.
      + rewrite fmap_insert, !dict_sum_insert_None, IH
          by (rewrite ?lookup_fmap, ?Hc; reflexivity).
        reflexivity. }
  split.
  - rewrite Htotal. cbn [StatisticsAggregator.calculate_percentages
                           StatisticsAggregator.skipped_count].
    pose proof (for_each_count Notion.seen (Main.process fee_data) transactions
                  (fun s t s' => seen_step fee_data s s' t) _ _ Hl) as H.
    assert (Hi : Notion.seen StatisticsAggregator.init = 0) by reflexivity.
    rewrite Hi in H. unfold Notion.seen in H. lia.
  - cbn [StatisticsAggregator.calculate_percentages
           StatisticsAggregator.skipped_count StatisticsAggregator.skipped_reasons].
    refine (for_each_invariant
              (fun a => StatisticsAggregator.skipped_count a
                        = ReportGenerator.dict_sum id (StatisticsAggregator.skipped_reasons a))
              (Main.process fee_data) transactions _ _ _ _ Hl).
    + intros s t s' Hs Hp. exact (skipped_sum_step fee_data s s' t Hs Hp).
    + reflexivity.
Qed.

Lemma run_accounts_for_every_transaction_witness :
  exists aggregator,
    Main.run (FeeDataLoader.load [Sample.fee_t1]) [Sample.reversal; Sample.refund]
    = Ok aggregator
    /\ StatisticsAggregator.skipped_count aggregator
       + ReportGenerator.total_transactions (StatisticsAggregator.stats aggregator)
       = 2.
Proof.
  destruct (Main.run (FeeDataLoader.load [Sample.fee_t1]) [Sample.reversal; Sample.refund])
    as [aggregator|e] eqn:H; [|vm_compute in H; discriminate H].
  exists aggregator. split; [reflexivity|].
  exact (proj1 (run_accounts_for_every_transaction _ _ _ H)).
Defined.

Section Buckets.
Import Py StatisticsAggregator Notion Statement.

Lemma fsum_snoc (l : list float) (x : float) :
  fsum (l ++ [x]) = (fsum l + x)%float.
Proof. unfold fsum. now rewrite fold_left_app. Qed.

Lemma totals_of_refs_new : totals_of_refs new_bucket.
Proof. unfold totals_of_refs. cbn. repeat split. Qed.

Lemma totals_of_refs_update (b : Bucket) (id currency : string)
    (amount : float) (icpp : ICPP) :
  totals_of_refs b -> totals_of_refs (update_bucket b id currency amount icpp).
Proof.
  unfold totals_of_refs. cbv zeta.
  cbn [update_bucket count total_volume total_ic total_first_plus
       total_second_plus total_mdr transactions total_gateway_fee
       total_authorization_fee total_clearing_fee total_cross_border_fee
       total_cross_currency_fee total_preauth_fee total_three_ds_fee
       total_non_three_ds_fee total_vat total_wht total_grt total_st
       total_net_acquirer_markup].
  rewrite !fmap_app, length_app. cbn [fmap list_fmap length ref_amount ref_icpp].
  rewrite !fsum_snoc.
  intros (H0 & H1 & H2 & H3 & H4 & H5 & H6 & H7 & H8 & H9 & H10 & H11 & H12
          & H13 & H14 & H15 & H16 & H17 & H18).
  rewrite H0, <- H1, <- H2, <- H3, <- H4, <- H5, <- H6, <- H7, <- H8, <- H9,
    <- H10, <- H11, <- H12, <- H13, <- H14, <- H15, <- H16, <- H17, <- H18.
  repeat split. lia.
Qed.

Lemma totals_of_refs_percentages (b : Bucket) :
  totals_of_refs b -> totals_of_refs (percentages b).
Proof. unfold totals_of_refs. now destruct b. Qed.

Lemma well_formed_step (s s' : Stats) (transaction : Transaction)
    (icpp : ICPP) (region : string) :
  well_formed s ->
  add_to_stats s transaction icpp region = Ok s' ->
  well_formed s'.
Proof.
  intros [Hb Hr] H. split.
  - intros r c b. rewrite (bucket_at_step _ _ _ _ _ r c H).
    destruct (in_bucket r c _); [|apply Hb].
    unfold bucket_step. cbn [fst snd].
    apply add_to_stats_Ok in H as (amount & -> & _).
    intros [= <-].
    assert (Ht : totals_of_refs (default new_bucket (bucket_at s r c))).
    { destruct (bucket_at s r c) as [b0|] eqn:Hb0; cbn;
        [now apply (Hb r c)|apply totals_of_refs_new]. }
    split; [now apply totals_of_refs_update|].
    destruct Ht as [Hc _]. cbn [count update_bucket]. lia.
  - apply add_to_stats_Ok in H as (amount & _ & ->).
    intros r by_card. destruct (decide (region = r)) as [->|Hne].
    + rewrite lookup_insert_eq. intros [= <-]. apply insert_non_empty.
    + rewrite lookup_insert_ne by exact Hne. apply Hr.
Qed.

Lemma well_formed_process (fee_data : FeeData)
    (aggregator aggregator' : StatisticsAggregator.t) (transaction : Transaction) :
  well_formed (stats aggregator) ->
  Main.process fee_data aggregator transaction = Ok aggregator' ->
  well_formed (stats aggregator').
Proof.
  intros Hw H. apply process_cases in H as [[reason ->]|[fees H]]; [exact Hw|].
  cbv zeta in H. apply add_transaction_inv in H as (H & _).
  exact (well_formed_step _ _ _ _ _ Hw H).
Qed.

End Buckets.

(** X13: after [run], every bucket of the statistics has a count of at least
    1 that is the length of its [transactions] list, each of its totals is
    the float sum, from 0.0 and in list order, of the corresponding values of
    the entries of that list, and no region is without a bucket; the reports
    thus never meet a bucket whose count is 0. *)
Theorem run_buckets_well_formed (fee_data : FeeData)
    (transactions : list Transaction) (aggregator : StatisticsAggregator.t) :
  Main.run fee_data transactions = Ok aggregator ->
  (forall (region card_type : string) (b : Bucket),
      StatisticsAggregator.bucket_at (StatisticsAggregator.stats aggregator)
        region card_type = Some b ->
      Notion.totals_of_refs b /\ 1 <= count b)
  /\ (forall (region : string) (by_card : gmap string Bucket),
        StatisticsAggregator.stats aggregator !! region = Some by_card ->
        by_card <> ∅).
Proof.
  unfold Main.run.
  destruct (for_each _ transactions _) as [a|e] eqn:Hl; cbn; [|discriminate].
  intros [= <-].
  assert (Hw : Notion.well_formed (StatisticsAggregator.stats a)).
  { refine (for_each_invariant
              (fun a => Notion.well_formed (StatisticsAggregator.stats a))
              (Main.process fee_data) transactions _ _ _ _ Hl).
    - intros s t s' Hs Hp. exact (well_formed_process fee_data s s' t Hs Hp).
    - split.
      + intros r c b H. unfold StatisticsAggregator.bucket_at in H. cbn in H.
        rewrite lookup_empty in H. discriminate H.
      + intros r by_card H. cbn in H. rewrite lookup_empty in H. discriminate H. }
  destruct Hw as [Hb Hr]. split.
  - intros r c b. rewrite bucket_at_calculate_percentages.
    destruct (StatisticsAggregator.bucket_at _ r c) as [b0|] eqn:Hb0; [|discriminate].
    intros [= <-]. destruct (Hb r c b0 Hb0) as [Ht Hc].
    split; [now apply totals_of_refs_percentages|exact Hc].
  - intros r by_card. cbn [StatisticsAggregator.calculate_percentages
                             StatisticsAggregator.stats].
    rewrite lookup_fmap.
    destruct (StatisticsAggregator.stats a !! r) as [m|] eqn:Hm; [|discriminate].
    intros [= <-]. rewrite fmap_empty_iff. now apply (Hr r).
Qed.

Lemma run_buckets_well_formed_witness :
  exists aggregator b,
    Main.run (FeeDataLoader.load [Sample.fee_t1]) [Sample.reversal] = Ok aggregator
    /\ StatisticsAggregator.bucket_at (StatisticsAggregator.stats aggregator)
         "HK" "VISA" = Some b
    /\ 1 <= count b.
Proof.
  destruct (Main.run (FeeDataLoader.load [Sample.fee_t1]) [Sample.reversal])
    as [aggregator|e] eqn:H; [|vm_compute in H; discriminate H].
  destruct (StatisticsAggregator.bucket_at (StatisticsAggregator.stats aggregator)
              "HK" "VISA") as [b|] eqn:Hb.
  - exists aggregator, b. split; [reflexivity|]. split; [exact Hb|].
    exact (proj2 (proj1 (run_buckets_well_formed _ _ _ H) "HK" "VISA" b Hb)).
  - exfalso.
    assert (Ha : Ok aggregator
                 = Main.run (FeeDataLoader.load [Sample.fee_t1]) [Sample.reversal])
      by now rewrite H.
    apply (f_equal (fun r => match r with
                             | Ok a => StatisticsAggregator.bucket_at
                                         (StatisticsAggregator.stats a) "HK" "VISA"
                             | Raise _ => None
                             end)) in Ha.
    cbn beta iota in Ha. rewrite Hb in Ha. vm_compute in Ha. discriminate Ha.
Defined.



Section Finalize.
Import Py StatisticsAggregator Notion Statement.

Lemma percentages_idem (b : Bucket) : percentages (percentages b) = percentages b.
Proof. now destruct b. Qed.

Lemma identify_region_range (merchant card_country : string) :
  identify_region merchant card_country ∈ ReportGenerator.region_order.
Proof.
  unfold identify_region, REGION_MAPPING, ReportGenerator.region_order.
  cbn [List.find fst].
  destruct (contains "Hong Kong" merchant); [apply list_elem_of_here|].
  destruct (contains "Malaysia" merchant);
    [apply list_elem_of_further, list_elem_of_here|].
  destruct (contains "Thailand" merchant);
    [do 2 apply list_elem_of_further; apply list_elem_of_here|].
  destruct (truthy_str card_country);
    [|do 3 apply list_elem_of_further; apply list_elem_of_here].
  destruct (in_list card_country ["HKG"; "HK"]); [apply list_elem_of_here|].
  destruct (in_list card_country ["MYS"; "MY"]);
    [apply list_elem_of_further, list_elem_of_here|].
  destruct (in_list card_country ["THA"; "TH"]);
    [do 2 apply list_elem_of_further; apply list_elem_of_here|].
  do 3 apply list_elem_of_further; apply list_elem_of_here.
Qed.

Lemma regions_known_process (fee_data : FeeData)
    (aggregator aggregator' : StatisticsAggregator.t) (transaction : Transaction) :
  (forall r, is_Some (stats aggregator !! r) -> r ∈ ReportGenerator.region_order) ->
  Main.process fee_data aggregator transaction = Ok aggregator' ->
  forall r, is_Some (stats aggregator' !! r) -> r ∈ ReportGenerator.region_order.
Proof.
  intros Hinv H r. apply process_cases in H as [[reason ->]|[fees H]]; [apply Hinv|].
  cbv zeta in H. apply add_transaction_inv in H as (H & _).
  rewrite (region_step _ _ _ _ _ r H). intros [Hr|<-]; [now apply Hinv|].
  apply identify_region_range.
Qed.

Lemma fold_bucket_step_refs (l : list (Transaction * ICPP * string)) :
  forall (bucket : option Bucket) (b : Bucket),
    Forall (fun triple => exists amount, amount_of (fst (fst triple)) = Ok amount) l ->
    fold_left bucket_step l bucket = Some b ->
    ref_id <$> transactions b
    = ((ref_id <$> transactions (default new_bucket bucket))
       ++ ((fun triple => default "N/A" (fst (fst triple) !! "Gateway UUID")) <$> l))%list
    /\ ref_icpp <$> transactions b
       = ((ref_icpp <$> transactions (default new_bucket bucket))
          ++ ((fun triple => snd (fst triple)) <$> l))%list
    /\ currency b
       = default (currency (default new_bucket bucket))
           ((fun triple => default "" (fst (fst triple) !! "Currency")) <$> last l).
Proof.
  induction l as [|triple l IH]; intros bucket b Hl H.
  - cbn in H. subst bucket. cbn. now rewrite !app_nil_r.
  - inversion Hl as [|? ? (amount & Ha) Hl']; subst.
    cbn [fold_left] in H. unfold bucket_step at 2 in H. rewrite Ha in H.
    destruct (IH _ _ Hl' H) as (H1 & H2 & H3).
    cbn [default from_option id transactions currency update_bucket] in H1, H2, H3.
    rewrite fmap_app in H1. rewrite fmap_app in H2.
    cbn [fmap list_fmap ref_id ref_icpp] in H1, H2.
    rewrite <- app_assoc in H1. rewrite <- app_assoc in H2.
    split; [exact H1|]. split; [exact H2|].
    rewrite H3, last_cons. now destruct (last l).
Qed.

End Finalize.

(** X15: running [calculate_percentages] a second time changes nothing; the
    pass leaves the skip counters, the set of buckets and, in every bucket,
    the count, the totals, the currency and the [transactions] list as they
    were, and gives every bucket its four percentages. *)
Theorem calculate_percentages_idempotent (self : StatisticsAggregator.t) :
  let done := StatisticsAggregator.calculate_percentages self in
  StatisticsAggregator.calculate_percentages done = done
  /\ StatisticsAggregator.skipped_count done = StatisticsAggregator.skipped_count self
  /\ StatisticsAggregator.skipped_reasons done
     = StatisticsAggregator.skipped_reasons self
  /\ (forall region card_type : string,
        match StatisticsAggregator.bucket_at (StatisticsAggregator.stats self)
                region card_type,
              StatisticsAggregator.bucket_at (StatisticsAggregator.stats done)
                region card_type with
        | Some b0, Some b =>
            Statement.sums b = Statement.sums b0
            /\ currency b = currency b0
            /\ transactions b = transactions b0
            /\ is_Some (avg_ic_pct b) /\ is_Some (avg_first_plus_pct b)
            /\ is_Some (avg_second_plus_pct b) /\ is_Some (avg_mdr_pct b)
        | None, None => True
        | _, _ => False
        end).
Proof.
  cbv zeta. split; [|split; [reflexivity|split; [reflexivity|]]].
  - unfold StatisticsAggregator.calculate_percentages.
    cbn [StatisticsAggregator.stats StatisticsAggregator.skipped_count
         StatisticsAggregator.skipped_reasons].
    f_equal. rewrite <- map_fmap_compose. apply map_fmap_ext.
    intros r by_card _. cbn. rewrite <- map_fmap_compose. apply map_fmap_ext.
    intros c b _. apply percentages_idem.
  - intros r c. rewrite bucket_at_calculate_percentages.
    destruct (StatisticsAggregator.bucket_at _ r c) as [b0|]; cbn; [|exact I].
    destruct b0. cbn. unfold Py.fgt. repeat split;
      destruct (PrimFloat.ltb _ _); eauto.
Qed.

(** X16: after [run], every region that has statistics is one of HK, MY, TH,
    UNKNOWN, so that the console report, which walks this fixed list of
    regions, prints every region of the statistics. *)
Theorem run_regions_are_printed (fee_data : FeeData)
    (transactions : list Transaction) (aggregator : StatisticsAggregator.t) :
  Main.run fee_data transactions = Ok aggregator ->
  forall region : string,
    is_Some (StatisticsAggregator.stats aggregator !! region)
    <-> In region (ReportGenerator.printed_regions
                     (StatisticsAggregator.stats aggregator)).
Proof.
  unfold Main.run.
  destruct (for_each _ transactions _) as [a|e] eqn:Hl; intros Hrun region;
    cbn in Hrun; [|discriminate Hrun].
  injection Hrun as <-.
  unfold ReportGenerator.printed_regions. rewrite filter_In, bool_decide_eq_true.
  split; [|tauto]. intros H. split; [|exact H].
  apply list_elem_of_In.
  cbn [StatisticsAggregator.calculate_percentages StatisticsAggregator.stats] in H.
  rewrite lookup_fmap, fmap_is_Some in H. revert region H.
  refine (for_each_invariant
            (fun a => forall r, is_Some (StatisticsAggregator.stats a !! r) ->
                                r ∈ ReportGenerator.region_order)
            (Main.process fee_data) transactions _ _ _ _ Hl).
  - intros s t s' Hs Hp. exact (regions_known_process fee_data s s' t Hs Hp).
  - intros r [x Hx]. cbn in Hx. rewrite lookup_empty in Hx. discriminate Hx.
Qed.

Lemma run_regions_are_printed_witness :
  exists aggregator,
    Main.run (FeeDataLoader.load [Sample.fee_t1]) [Sample.reversal] = Ok aggregator
    /\ In "HK" (ReportGenerator.printed_regions
                  (StatisticsAggregator.stats aggregator)).
Proof.
  destruct (Main.run (FeeDataLoader.load [Sample.fee_t1]) [Sample.reversal])
    as [aggregator|e] eqn:H; [|vm_compute in H; discriminate H].
  exists aggregator. split; [reflexivity|].
  apply (proj1 (run_regions_are_printed _ _ _ H "HK")).
  assert (Ha : Ok aggregator
               = Main.run (FeeDataLoader.load [Sample.fee_t1]) [Sample.reversal])
    by now rewrite H.
  apply (f_equal (fun r => match r with
                           | Ok a => bool_decide
                                       (is_Some (StatisticsAggregator.stats a !! "HK"))
                           | Raise _ => false
                           end)) in Ha.
  cbn beta iota in Ha.
  apply (bool_decide_unpack (is_Some (StatisticsAggregator.stats aggregator !! "HK"))).
  rewrite Ha. vm_compute. exact I.
Defined.

(** X17: in the statistics accumulated from the empty statistics, the
    [transactions] list of a bucket lists the triples of that bucket in
    processing order (their Gateway UUID, N/A when missing, and their
    breakdown), and the currency of the bucket is the Currency of the last of
    them. *)
Theorem bucket_keeps_processing_order (l : list (Transaction * ICPP * string))
    (s : Stats) (region card_type : string) (b : Bucket) :
  accumulate l ∅ = Ok s ->
  StatisticsAggregator.bucket_at s region card_type = Some b ->
  let mine := filter (fun triple => Statement.in_bucket region card_type triple) l in
  ref_id <$> transactions b
  = (fun triple => default "N/A" (fst (fst triple) !! "Gateway UUID")) <$> mine
  /\ ref_icpp <$> transactions b = (fun triple => snd (fst triple)) <$> mine
  /\ Some (currency b)
     = (fun triple => default "" (fst (fst triple) !! "Currency")) <$> last mine.
Proof.
  intros Hl Hb. cbv zeta.
  rewrite (accumulate_bucket_at l region card_type _ _ Hl) in Hb.
  assert (Hf : Forall (fun triple =>
                         exists amount,
                           StatisticsAggregator.amount_of (fst (fst triple)) = Ok amount)
                      (filter (fun triple => Statement.in_bucket region card_type triple) l)).
  { apply accumulate_amounts in Hl. rewrite Forall_forall in Hl |- *.
    intros x Hx. apply list_elem_of_filter in Hx as [_ Hx]. now apply Hl. }
  assert (Hnone : StatisticsAggregator.bucket_at ∅ region card_type = None).
  { unfold StatisticsAggregator.bucket_at. now rewrite lookup_empty. }
  rewrite Hnone in Hb.
  destruct (fold_bucket_step_refs _ None b Hf Hb) as (H1 & H2 & H3).
  split; [exact H1|]. split; [exact H2|].
  rewrite H3. destruct (last _) as [x|] eqn:Hlast; [reflexivity|].
  apply last_None in Hlast. rewrite Hlast in Hb. discriminate Hb.
Qed.

Lemma bucket_keeps_processing_order_witness :
  exists s b,
    accumulate [Sample.ta; Sample.tm; Sample.tb] ∅ = Ok s
    /\ StatisticsAggregator.bucket_at s "HK" "VISA" = Some b
    /\ ref_icpp <$> transactions b
       = (fun triple => snd (fst triple))
           <$> filter (fun triple => Statement.in_bucket "HK" "VISA" triple)
                      [Sample.ta; Sample.tm; Sample.tb].
Proof.
  destruct (accumulate [Sample.ta; Sample.tm; Sample.tb] ∅) as [s|e] eqn:H;
    [|vm_compute in H; discriminate H].
  destruct (StatisticsAggregator.bucket_at s "HK" "VISA") as [b|] eqn:Hb.
  - exists s, b. split; [reflexivity|]. split; [exact Hb|].
    exact (proj1 (proj2 (bucket_keeps_processing_order _ _ _ _ _ H Hb))).
  - exfalso.
    assert (Ha : Ok s = accumulate [Sample.ta; Sample.tm; Sample.tb] ∅)
      by now rewrite H.
    apply (f_equal (fun r => match r with
                             | Ok s => StatisticsAggregator.bucket_at s "HK" "VISA"
                             | Raise _ => None
                             end)) in Ha.
    cbn beta iota in Ha. rewrite Hb in Ha. vm_compute in Ha. discriminate Ha.
Defined.

Section Malaysia.
Import Py StatisticsAggregator Notion Statement.

Lemma scheme_fee_waived_step (s s' : Stats) (transaction : Transaction)
    (fees : FeeRecord) (region : string) :
  (forall c b, bucket_at s "MY" c = Some b ->
               total_first_plus b = 0%float
               /\ Forall (fun ref => first_plus (ref_icpp ref) = 0%float)
                         (transactions b)) ->
  add_to_stats s transaction (calculate_icpp transaction fees region) region = Ok s' ->
  forall c b, bucket_at s' "MY" c = Some b ->
              total_first_plus b = 0%float
              /\ Forall (fun ref => first_plus (ref_icpp ref) = 0%float)
                        (transactions b).
Proof.
  intros Hinv H c b. rewrite (bucket_at_step _ _ _ _ _ "MY" c H).
  destruct (in_bucket "MY" c _) eqn:Hin; [|apply Hinv].
  apply in_bucket_true in Hin as [-> _].
  apply add_to_stats_Ok in H as (amount & Ha & _).
  unfold bucket_step. cbn [fst snd]. rewrite Ha. intros [= <-].
  assert (H0 : total_first_plus (default new_bucket (bucket_at s "MY" c)) = 0%float
               /\ Forall (fun ref => first_plus (ref_icpp ref) = 0%float)
                         (transactions (default new_bucket (bucket_at s "MY" c)))).
  { destruct (bucket_at s "MY" c) as [b0|] eqn:Hb0; cbn.
    - now apply (Hinv c).
    - split; [reflexivity|constructor]. }
  destruct H0 as [Ht Hf].
  cbn [update_bucket total_first_plus transactions]. split.
  - rewrite Ht. reflexivity.
  - apply Forall_app. split; [exact Hf|]. constructor; [reflexivity|constructor].
Qed.

End Malaysia.

(** X18: after [run], every bucket of the region MY has the total first
    plus 0.0, and every entry of its [transactions] list has the first
    plus 0.0, whatever scheme fees the fee data carry. *)
Theorem malaysia_has_no_scheme_fee (fee_data : FeeData)
    (transactions_in : list Transaction) (aggregator : StatisticsAggregator.t) :
  Main.run fee_data transactions_in = Ok aggregator ->
  forall (card_type : string) (b : Bucket),
    StatisticsAggregator.bucket_at (StatisticsAggregator.stats aggregator)
      "MY" card_type = Some b ->
    total_first_plus b = 0%float
    /\ Forall (fun ref => first_plus (ref_icpp ref) = 0%float) (transactions b).
Proof.
  unfold Main.run.
  destruct (for_each _ transactions_in _) as [a|e] eqn:Hl; intros Hrun c b;
    cbn in Hrun; [|discriminate Hrun].
  injection Hrun as <-.
  rewrite bucket_at_calculate_percentages.
  destruct (StatisticsAggregator.bucket_at _ "MY" c) as [b0|] eqn:Hb0; [|discriminate].
  intros [= <-].
  assert (H : total_first_plus b0 = 0%float
              /\ Forall (fun ref => first_plus (ref_icpp ref) = 0%float)
                        (transactions b0)); [|now destruct b0].
  revert c b0 Hb0.
  refine (for_each_invariant
            (fun a => forall c b,
                 StatisticsAggregator.bucket_at (StatisticsAggregator.stats a) "MY" c
                 = Some b ->
                 total_first_plus b = 0%float
                 /\ Forall (fun ref => first_plus (ref_icpp ref) = 0%float)
                           (transactions b))
            (Main.process fee_data) transactions_in _ _ _ _ Hl).
  - intros s t s' Hs Hp.
    apply process_cases in Hp as [[reason ->]|[fees Hp]]; [exact Hs|].
    cbv zeta in Hp. apply add_transaction_inv in Hp as (Hp & _).
    exact (scheme_fee_waived_step _ _ _ _ _ Hs Hp).
  - intros c b H. unfold StatisticsAggregator.bucket_at in H. cbn in H.
    rewrite lookup_empty in H. discriminate H.
Qed.

Lemma malaysia_has_no_scheme_fee_witness :
  exists aggregator b,
    Main.run (FeeDataLoader.load [Sample.fee_t1]) [Fixture.malaysian_sale]
    = Ok aggregator
    /\ StatisticsAggregator.bucket_at (StatisticsAggregator.stats aggregator)
         "MY" "VISA" = Some b
    /\ total_first_plus b = 0%float.
Proof.
  destruct (Main.run (FeeDataLoader.load [Sample.fee_t1]) [Fixture.malaysian_sale])
    as [aggregator|e] eqn:H; [|vm_compute in H; discriminate H].
  destruct (StatisticsAggregator.bucket_at (StatisticsAggregator.stats aggregator)
              "MY" "VISA") as [b|] eqn:Hb.
  - exists aggregator, b. split; [reflexivity|]. split; [exact Hb|].
    exact (proj1 (malaysia_has_no_scheme_fee _ _ _ H "VISA" b Hb)).
  - exfalso.
    assert (Ha : Ok aggregator
                 = Main.run (FeeDataLoader.load [Sample.fee_t1]) [Fixture.malaysian_sale])
      by now rewrite H.
    apply (f_equal (fun r => match r with
                             | Ok a => StatisticsAggregator.bucket_at
                                         (StatisticsAggregator.stats a) "MY" "VISA"
                             | Raise _ => None
                             end)) in Ha.
    cbn beta iota in Ha. rewrite Hb in Ha. vm_compute in Ha. discriminate Ha.
Defined.

(** *** The number parsers on separators, white space and long numerals *)

Example parsers_on_edge_cases :
  Py.float_of_str "1_000" = Some 1000%float
  /\ Py.float_of_str "1_0.5_0e1_0" = Some 105000000000%float
  /\ Py.float_of_str "1__0" = None
  /\ Py.float_of_str "_1" = None
  /\ Py.float_of_str "1_" = None
  /\ Py.float_of_str "1_.5" = None
  /\ Py.float_of_str (String (ascii_of_nat 9) "1.5 ") = Some 1.5%float
  /\ Py.float_of_str (String (ascii_of_nat 28) "1.5") = None
  /\ Py.int_of_str "1_0" = Some 10
  /\ Py.int_of_str (String (ascii_of_nat 28) "1") = None
  /\ Py.int_of_str "+007" = Some 7
  /\ Py.int_of_str (string_of_list_ascii (repeat "1"%char 4301)) = None
  /\ is_Some (Py.int_of_str (string_of_list_ascii (repeat "1"%char 4300))).
Proof.
  repeat split; try (vm_compute; reflexivity).
  apply (bool_decide_unpack (is_Some _)). vm_compute. exact I.
Qed.
